(** * ETop AM system: scoring engine, adapter contract and citation gate

    A shallow embedding of the JavaScript sources
      - engine/standards-score.js, engine/risk-score.js,
        engine/experience-score.js   (the three calculators),
      - models/{device,control,user,ticket,risk}.js (the queries they use),
      - adapters/{base,immy,connectwise,m365}-adapter.js,
      - qbr/narrative-generator.js   (citation validation),
    followed by the properties of the specification, proved or refuted on
    the embedding.

    Modelling conventions.
      - A JavaScript number is an exact rational ([Q]); [Math.round] is
        [floor (x + 1/2)].  Equality of numbers is [Qeq] ([==]).
      - A table is the list of its rows, a nullable column an [option];
        a knex [where({col: v})] never matches a NULL column.
      - [await] is sequencing: the calculators read one snapshot of the
        store, so a query is a pure function of the store.
      - Strings are sequences of ASCII characters.
      - The host environment (clock, date-fns quarter arithmetic, local
        time zone) is a record of parameters.
      - The inputs on which a property is refuted are re-evaluated in
        binary64 arithmetic at the end of the file. *)

From Stdlib Require Import ZArith QArith Qabs Qround Lqa Lia List String Ascii Bool.
From Stdlib Require Import DecimalString PrimFloat Uint63.
From stdpp Require Import base option list gmap strings.

Local Open Scope Z_scope.
Local Open Scope Q_scope.
Local Open Scope string_scope.
Local Open Scope list_scope.

(* ===================================================================== *)
(** ** JavaScript primitives used by the sources *)
(* ===================================================================== *)

Module JS.

(** Values that can sit in an object literal or a credentials field. *)
Inductive Val :=
| Undefined
| Null
| Bool (b : bool)
| Num (q : Q)
| Str (s : string).

(** ToBoolean: [undefined], [null], [false], [0] and [''] are falsy. *)
Definition truthy (v : Val) : bool :=
  match v with
  | Undefined | Null => false
  | Bool b => b
  | Num q => negb (Qeq_bool q 0)
  | Str s => negb (String.eqb s "")
  end.

(** A count read from the store ([parseInt(result.count, 10)], [.length]). *)
Definition ofNat (n : nat) : Q := inject_Z (Z.of_nat n).

(** [Math.round]: nearest integer, halves towards +infinity. *)
Definition Math_round (x : Q) : Z := Qfloor (x + (1 # 2)).

Definition Math_min (a b : Q) : Q := if Qle_bool a b then a else b.
Definition Math_max (a b : Q) : Q := if Qle_bool a b then b else a.

(** Strict comparison [a < b] of two numbers. *)
Definition lt (a b : Q) : bool := negb (Qle_bool b a).

(** [`${n}`] for an integer-valued number. *)
Definition showZ (z : Z) : string := NilZero.string_of_int (Z.to_int z).
Definition showNat (n : nat) : string := showZ (Z.of_nat n).

(** [x.toFixed(1)]: the integer [n] with [n / 10] nearest to the magnitude
    of [x] (the larger one on a tie), printed with one decimal digit. *)
Definition toFixed1 (x : Q) : string :=
  let n := Math_round (Qabs x * 10) in
  let body := showZ (n / 10) +:+ "." +:+ showZ (n mod 10) in
  if lt x 0 then "-" +:+ body else body.

(** [String.prototype.toLowerCase] on ASCII text. *)
Definition lowerChar (c : ascii) : ascii :=
  let n := nat_of_ascii c in
  if ((65 <=? n) && (n <=? 90))%nat then ascii_of_nat (n + 32) else c.

Fixpoint toLowerCase (s : string) : string :=
  match s with
  | EmptyString => EmptyString
  | String c r => String (lowerChar c) (toLowerCase r)
  end.

(** [hay.includes(needle)]: [needle] occurs at some position of [hay]. *)
Fixpoint includes (hay needle : string) : bool :=
  String.prefix needle hay
  || match hay with
     | EmptyString => false
     | String _ r => includes r needle
     end.

End JS.

(* ===================================================================== *)
(** ** The normalized store and the query helpers of models/*.js *)
(* ===================================================================== *)

Module Store.

(** Rows carry the columns the scoring queries read. *)
Record Device := {
  device_id : Z;
  device_client_id : option Z;
  device_managed : option bool;
  device_health_status : option string }.

Record Control := {
  control_id : Z;
  control_client_id : option Z;
  control_type : option string;
  control_status : option string }.

Record User := {
  user_id : Z;
  user_client_id : option Z;
  user_mfa_enabled : option bool;
  user_risk_level : option string }.

Record Ticket := {
  ticket_id : Z;
  ticket_client_id : option Z;
  ticket_category : option string;
  ticket_sla_met : option bool;
  ticket_reopen_count : option Z;
  ticket_created_date : option Z }.   (* a timestamp, in milliseconds *)

Record Risk := {
  risk_id : Z;
  risk_client_id : option Z;
  risk_type : option string;
  risk_status : option string }.

Record DB := {
  devices : list Device;
  controls : list Control;
  users : list User;
  tickets : list Ticket;
  risks : list Risk }.

(** SQL [col = v]: false on NULL. *)
Definition isZ (col : option Z) (v : Z) : bool :=
  match col with Some x => (x =? v)%Z | None => false end.
Definition isStr (col : option string) (v : string) : bool :=
  match col with Some x => String.eqb x v | None => false end.
Definition isTrue (col : option bool) : bool :=
  match col with Some b => b | None => false end.
(** SQL [col BETWEEN lo AND hi] (inclusive): false on NULL. *)
Definition between (col : option Z) (lo hi : Z) : bool :=
  match col with Some x => ((lo <=? x) && (x <=? hi))%Z | None => false end.

Section Queries.
Variable db : DB.

(** *** models/device.js *)
Definition device_findByClientId (clientId : Z) : list Device :=
  List.filter (fun d => isZ (device_client_id d) clientId) (devices db).

Definition device_findByHealthStatus (clientId : Z) (healthStatus : string)
  : list Device :=
  List.filter (fun d => isZ (device_client_id d) clientId
                        && isStr (device_health_status d) healthStatus)
              (devices db).

Definition device_countByClientId (clientId : Z) : nat :=
  length (device_findByClientId clientId).

Definition device_countManagedByClientId (clientId : Z) : nat :=
  length (List.filter (fun d => isZ (device_client_id d) clientId
                                && isTrue (device_managed d))
                      (devices db)).

(** *** models/control.js *)
Definition control_findByType (clientId : Z) (controlType : string) : list Control :=
  List.filter (fun c => isZ (control_client_id c) clientId
                        && isStr (control_type c) controlType)
              (controls db).

Definition control_countByStatus (clientId : Z) (status : string) : nat :=
  length (List.filter (fun c => isZ (control_client_id c) clientId
                                && isStr (control_status c) status)
                      (controls db)).

(** [getPassRate(clientId, controlType)] with a non-empty [controlType]. *)
Definition control_getPassRate (clientId : Z) (controlType : string) : Q :=
  let query := List.filter (fun c => isZ (control_client_id c) clientId
                                     && isStr (control_type c) controlType)
                           (controls db) in
  let totalCount := length query in
  let passedCount :=
    length (List.filter (fun c => isStr (control_status c) "pass") query) in
  if (totalCount =? 0)%nat then 0
  else (JS.ofNat passedCount / JS.ofNat totalCount) * 100.

(** *** models/user.js *)
Definition user_countByClientId (clientId : Z) : nat :=
  length (List.filter (fun u => isZ (user_client_id u) clientId) (users db)).

Definition user_countMFAEnabled (clientId : Z) : nat :=
  length (List.filter (fun u => isZ (user_client_id u) clientId
                                && isTrue (user_mfa_enabled u))
                      (users db)).

Definition user_countByRiskLevel (clientId : Z) (riskLevel : string) : nat :=
  length (List.filter (fun u => isZ (user_client_id u) clientId
                                && isStr (user_risk_level u) riskLevel)
                      (users db)).

(** *** models/ticket.js (the result order of [findByDateRange] is not
    observed by the calculators) *)
Definition ticket_findByDateRange (clientId startDate endDate : Z) : list Ticket :=
  List.filter (fun t => isZ (ticket_client_id t) clientId
                        && between (ticket_created_date t) startDate endDate)
              (tickets db).

Definition ticket_countSLAMet (clientId startDate endDate : Z) : nat :=
  length (List.filter (fun t => isZ (ticket_client_id t) clientId
                                && isTrue (ticket_sla_met t)
                                && between (ticket_created_date t) startDate endDate)
                      (tickets db)).

Definition ticket_countReopened (clientId startDate endDate : Z) : nat :=
  length (List.filter (fun t => isZ (ticket_client_id t) clientId
                                && match ticket_reopen_count t with
                                   | Some n => (0 <? n)%Z
                                   | None => false
                                   end
                                && between (ticket_created_date t) startDate endDate)
                      (tickets db)).

(** *** models/risk.js *)
Definition risk_findByType (clientId : Z) (riskType : string) : list Risk :=
  List.filter (fun r => isZ (risk_client_id r) clientId
                        && isStr (risk_type r) riskType)
              (risks db).
End Queries.

End Store.

(* ===================================================================== *)
(** ** The scoring engine (engine/*.js) *)
(* ===================================================================== *)

(** Host services the calculators call: [new Date()], the date-fns
    functions [startOfQuarter], [endOfQuarter], [subMonths], and
    [Date.prototype.getHours] / [getDay] in the local time zone. *)
Record Host := {
  now : Z;
  startOfQuarter : Z -> Z;
  endOfQuarter : Z -> Z;
  subMonths : Z -> Z -> Z;
  getHours : Z -> Z;
  getDay : Z -> Z }.

(** An object literal: its keys, in order, with their values. *)
Abbreviation Evidence := (list (string * JS.Val)).

(** What a component calculator returns: [{score, evidence}], and
    [risk_level] for the Risk components. *)
Module Component.
Record t := {
  score : Q;
  risk_level : option string;
  evidence : Evidence }.
End Component.

(** A breakdown entry [{...component, weight: '20%'}]. *)
Module Entry.
Record t := {
  component : Component.t;
  weight : string }.
End Entry.

(** What a calculator returns; [error] is present only in the
    insufficient-data result, [breakdown] is [{}] there. *)
Module ScoreResult.
Record t := {
  score : option Z;
  error : option string;
  breakdown : list (string * Entry.t);
  computed_at : Z }.
End ScoreResult.

Module Engine.
Import JS Store.

(** [components.reduce((sum, c) => sum + c.score * c.weight, 0)] over the
    list [{...component, weight: w}]. *)
Definition weightedTotal (components : list (Component.t * Q)) : Q :=
  fold_left (fun sum c => sum + Component.score (fst c) * snd c) components 0.

Definition plain (score : Q) (evidence : Evidence) : Component.t :=
  {| Component.score := score;
     Component.risk_level := None;
     Component.evidence := evidence |}.

Definition risky (score : Q) (level : string) (evidence : Evidence) : Component.t :=
  {| Component.score := score;
     Component.risk_level := Some level;
     Component.evidence := evidence |}.

Definition entry (c : Component.t) (w : string) : Entry.t :=
  {| Entry.component := c; Entry.weight := w |}.

(** [`${a}/${b} <what> (${pct}%) <tail>`] *)
Definition ratioText (a b : nat) (what : string) (pct : Z) (tail : string) : string :=
  showNat a +:+ "/" +:+ showNat b +:+ " " +:+ what +:+ " (" +:+ showZ pct +:+ "%) " +:+ tail.

Definition numZ (z : Z) : JS.Val := Num (inject_Z z).
Definition numNat (n : nat) : JS.Val := Num (ofNat n).

(* ------------------------------------------------------------------- *)
(** *** engine/standards-score.js *)
(* ------------------------------------------------------------------- *)
Section Standards.
Variable host : Host.
Variable db : DB.

Definition calculateDeviceCoverage (clientId : Z) (totalDevices managedDevices : nat)
  : Component.t :=
  let percentage :=
    if (0 <? totalDevices)%nat
    then (ofNat managedDevices / ofNat totalDevices) * 100 else 0 in
  plain (Math_min percentage 100)
    [ ("total_devices", numNat totalDevices);
      ("managed_devices", numNat managedDevices);
      ("coverage_percentage", numZ (Math_round percentage));
      ("description",
       Str (ratioText managedDevices totalDevices "devices"
                      (Math_round percentage) "under management")) ].

Definition calculateImmyCompliance (clientId : Z) : Component.t :=
  let totalControls :=
    (control_countByStatus db clientId "pass"
     + control_countByStatus db clientId "fail"
     + control_countByStatus db clientId "unknown")%nat in
  if (totalControls =? 0)%nat then
    plain 0 [ ("description", Str "No Immy.Bot compliance data available") ]
  else
    let passedControls := control_countByStatus db clientId "pass" in
    let percentage := (ofNat passedControls / ofNat totalControls) * 100 in
    plain (inject_Z (Math_round percentage))
      [ ("total_controls", numNat totalControls);
        ("passed_controls", numNat passedControls);
        ("compliance_percentage", numZ (Math_round percentage));
        ("description",
         Str (ratioText passedControls totalControls "controls"
                        (Math_round percentage) "passing")) ].

Definition calculatePatchCompliance (clientId : Z) : Component.t :=
  let totalDevices := device_countByClientId db clientId in
  let healthyDevices := length (device_findByHealthStatus db clientId "healthy") in
  if (totalDevices =? 0)%nat then
    plain 0 [ ("description", Str "No device data available for patch compliance") ]
  else
    let percentage := (ofNat healthyDevices / ofNat totalDevices) * 100 in
    plain (inject_Z (Math_round percentage))
      [ ("total_devices", numNat totalDevices);
        ("healthy_devices", numNat healthyDevices);
        ("patch_percentage", numZ (Math_round percentage));
        ("description",
         Str (ratioText healthyDevices totalDevices "devices"
                        (Math_round percentage) "in healthy status")) ].

Definition calculateEDRHealth (clientId : Z) : Component.t :=
  let totalDevices := device_countByClientId db clientId in
  let managedDevices := device_countManagedByClientId db clientId in
  if (totalDevices =? 0)%nat then
    plain 0 [ ("description", Str "No device data available for EDR health") ]
  else
    let percentage := (ofNat managedDevices / ofNat totalDevices) * 100 in
    plain (inject_Z (Math_round percentage))
      [ ("total_devices", numNat totalDevices);
        ("devices_with_edr", numNat managedDevices);
        ("edr_coverage", numZ (Math_round percentage));
        ("description",
         Str (ratioText managedDevices totalDevices "devices"
                        (Math_round percentage) "with EDR coverage")) ].

Definition calculateM365SecureScore (clientId : Z) : Component.t :=
  let passRate := control_getPassRate db clientId "m365_secure_score" in
  if Qeq_bool passRate 0 then
    plain 0 [ ("description", Str "No Microsoft 365 Secure Score data available") ]
  else
    plain (inject_Z (Math_round passRate))
      [ ("secure_score_percentage", numZ (Math_round passRate));
        ("description",
         Str ("Microsoft Secure Score: " +:+ showZ (Math_round passRate) +:+ "%")) ].

Definition calculateStandardsScore (clientId : Z) : ScoreResult.t :=
  let totalDevices := device_countByClientId db clientId in
  let managedDevices := device_countManagedByClientId db clientId in
  if (totalDevices =? 0)%nat then
    {| ScoreResult.score := None;
       ScoreResult.error := Some "Insufficient data: no devices found";
       ScoreResult.breakdown := [];
       ScoreResult.computed_at := now host |}
  else
    let deviceCoverage := calculateDeviceCoverage clientId totalDevices managedDevices in
    let immyCompliance := calculateImmyCompliance clientId in
    let patchCompliance := calculatePatchCompliance clientId in
    let edrHealth := calculateEDRHealth clientId in
    let m365SecureScore := calculateM365SecureScore clientId in
    let components :=
      [ (deviceCoverage, 0.20); (immyCompliance, 0.30); (patchCompliance, 0.20);
        (edrHealth, 0.15); (m365SecureScore, 0.15) ] in
    let totalScore := weightedTotal components in
    let breakdown :=
      [ ("device_coverage", entry deviceCoverage "20%");
        ("immy_compliance", entry immyCompliance "30%");
        ("patch_compliance", entry patchCompliance "20%");
        ("edr_health", entry edrHealth "15%");
        ("m365_secure_score", entry m365SecureScore "15%") ] in
    {| ScoreResult.score := Some (Math_round totalScore);
       ScoreResult.error := None;
       ScoreResult.breakdown := breakdown;
       ScoreResult.computed_at := now host |}.
End Standards.

(* ------------------------------------------------------------------- *)
(** *** engine/risk-score.js *)
(* ------------------------------------------------------------------- *)
Section Risk.
Variable host : Host.
Variable db : DB.

(** [riskScore < 25 ? 'Low' : riskScore < 50 ? 'Medium' : 'High'] *)
Definition riskLevelOf (riskScore : Q) : string :=
  if lt riskScore 25 then "Low" else if lt riskScore 50 then "Medium" else "High".

Definition calculateIdentityRisk (clientId : Z) : Component.t :=
  let totalUsers := user_countByClientId db clientId in
  if (totalUsers =? 0)%nat then
    risky 50 "Medium"
      [ ("description", Str "No user data available for identity risk assessment") ]
  else
    let mfaEnabled := user_countMFAEnabled db clientId in
    let highRiskUsers := user_countByRiskLevel db clientId "high" in
    let mediumRiskUsers := user_countByRiskLevel db clientId "medium" in
    let mfaCoverage := (ofNat mfaEnabled / ofNat totalUsers) * 100 in
    let riskScore := 0 in
    let riskScore := riskScore + (100 - mfaCoverage) * 0.6 in
    let highRiskPercentage := (ofNat highRiskUsers / ofNat totalUsers) * 100 in
    let riskScore := riskScore + highRiskPercentage * 0.3 in
    let mediumRiskPercentage := (ofNat mediumRiskUsers / ofNat totalUsers) * 100 in
    let riskScore := riskScore + mediumRiskPercentage * 0.1 in
    let riskLevel := riskLevelOf riskScore in
    risky (inject_Z (Math_round riskScore)) riskLevel
      [ ("total_users", numNat totalUsers);
        ("mfa_enabled", numNat mfaEnabled);
        ("mfa_coverage", numZ (Math_round mfaCoverage));
        ("high_risk_users", numNat highRiskUsers);
        ("medium_risk_users", numNat mediumRiskUsers);
        ("description",
         Str (ratioText mfaEnabled totalUsers "users" (Math_round mfaCoverage)
                        "have MFA enabled, "
              +:+ showNat highRiskUsers
              +:+ " users flagged as high risk by Entra ID")) ].

Definition calculateEmailRisk (clientId : Z) : Component.t :=
  let emailRisks := risk_findByType db clientId "email" in
  let openEmailRisks := List.filter (fun r => isStr (risk_status r) "open") emailRisks in
  let riskScore :=
    if (length openEmailRisks =? 0)%nat then 10
    else if (length openEmailRisks <=? 3)%nat then 30
    else if (length openEmailRisks <=? 10)%nat then 60
    else 90 in
  let riskLevel := riskLevelOf riskScore in
  risky riskScore riskLevel
    [ ("total_email_alerts", numNat (length emailRisks));
      ("open_email_alerts", numNat (length openEmailRisks));
      ("description",
       Str (showNat (length openEmailRisks) +:+ " open email-related security alerts")) ].

Definition calculateEndpointRisk (clientId : Z) : Component.t :=
  let totalDevices := device_countByClientId db clientId in
  if (totalDevices =? 0)%nat then
    risky 50 "Medium"
      [ ("description", Str "No device data available for endpoint risk assessment") ]
  else
    let managedDevices := device_countManagedByClientId db clientId in
    let criticalDevices := length (device_findByHealthStatus db clientId "critical") in
    let endpointRisks := risk_findByType db clientId "endpoint" in
    let openEndpointRisks :=
      List.filter (fun r => isStr (risk_status r) "open") endpointRisks in
    let unmanaged := ofNat totalDevices - ofNat managedDevices in
    let unmanagedPercentage := (unmanaged / ofNat totalDevices) * 100 in
    let criticalPercentage := (ofNat criticalDevices / ofNat totalDevices) * 100 in
    let riskScore := 0 in
    let riskScore := riskScore + unmanagedPercentage * 0.4 in
    let riskScore := riskScore + criticalPercentage * 0.3 in
    let riskScore := riskScore + Math_min (ofNat (length openEndpointRisks) * 5) 30 in
    let riskLevel := riskLevelOf riskScore in
    risky (inject_Z (Math_round riskScore)) riskLevel
      [ ("total_devices", numNat totalDevices);
        ("unmanaged_devices", Num unmanaged);
        ("critical_health_devices", numNat criticalDevices);
        ("open_endpoint_risks", numNat (length openEndpointRisks));
        ("description",
         Str (showZ (Z.of_nat totalDevices - Z.of_nat managedDevices)
              +:+ " devices missing EDR, "
              +:+ showNat criticalDevices +:+ " devices in critical health, "
              +:+ showNat (length openEndpointRisks) +:+ " open endpoint risks")) ].

Definition calculateBusinessModifier (clientId : Z) : Component.t :=
  risky 40 "Medium" [ ("description", Str "Standard business risk profile") ].

Definition calculateRiskScore (clientId : Z) : ScoreResult.t :=
  let identityRisk := calculateIdentityRisk clientId in
  let emailRisk := calculateEmailRisk clientId in
  let endpointRisk := calculateEndpointRisk clientId in
  let businessModifier := calculateBusinessModifier clientId in
  let components :=
    [ (identityRisk, 0.30); (emailRisk, 0.25); (endpointRisk, 0.25);
      (businessModifier, 0.20) ] in
  let totalScore := weightedTotal components in
  let breakdown :=
    [ ("identity_risk", entry identityRisk "30%");
      ("email_risk", entry emailRisk "25%");
      ("endpoint_risk", entry endpointRisk "25%");
      ("business_modifier", entry businessModifier "20%") ] in
  {| ScoreResult.score := Some (Math_round totalScore);
     ScoreResult.error := None;
     ScoreResult.breakdown := breakdown;
     ScoreResult.computed_at := now host |}.
End Risk.

(* ------------------------------------------------------------------- *)
(** *** engine/experience-score.js *)
(* ------------------------------------------------------------------- *)

(** What [categoryCount[category]] can hold: a count, or the text that
    [+ 1] makes of a member inherited from [Object.prototype]. *)
Inductive Tally :=
| Count (n : nat)
| Text.

(** The members a plain object inherits ([__proto__] is handled apart:
    assigning a primitive to it creates no key). *)
Definition inheritedNames : list string :=
  [ "constructor"; "hasOwnProperty"; "isPrototypeOf"; "propertyIsEnumerable";
    "toLocaleString"; "toString"; "valueOf";
    "__defineGetter__"; "__defineSetter__"; "__lookupGetter__"; "__lookupSetter__" ].

(** [ticket.category || 'Unknown'] *)
Definition categoryOf (ticket : Ticket) : string :=
  match ticket_category ticket with
  | Some c => if String.eqb c "" then "Unknown" else c
  | None => "Unknown"
  end.

(** One step of the [forEach]:
    [categoryCount[category] = (categoryCount[category] || 0) + 1]. *)
Definition countCategory (categoryCount : gmap string Tally) (ticket : Ticket)
  : gmap string Tally :=
  let category := categoryOf ticket in
  match categoryCount !! category with
  | Some (Count n) => <[category := Count (n + 1)]> categoryCount
  | Some Text => <[category := Text]> categoryCount
  | None =>
      if String.eqb category "__proto__" then categoryCount
      else if existsb (String.eqb category) inheritedNames
           then <[category := Text]> categoryCount
           else <[category := Count 1]> categoryCount
  end.

(** [count > 2] *)
Definition isRepeat (v : Tally) : bool :=
  match v with Count n => (2 <? n)%nat | Text => false end.

Section Experience.
Variable host : Host.
Variable db : DB.

Definition quarterStart : Z := startOfQuarter host (now host).
Definition quarterEnd : Z := endOfQuarter host (now host).

Definition calculateTicketsPerUserTrend (clientId : Z) : Component.t :=
  let currentQuarterStart := startOfQuarter host (now host) in
  let currentQuarterEnd := endOfQuarter host (now host) in
  let previousQuarterStart := startOfQuarter host (subMonths host (now host) 3) in
  let previousQuarterEnd := endOfQuarter host (subMonths host (now host) 3) in
  let currentTickets :=
    ticket_findByDateRange db clientId currentQuarterStart currentQuarterEnd in
  let previousTickets :=
    ticket_findByDateRange db clientId previousQuarterStart previousQuarterEnd in
  let userCount := user_countByClientId db clientId in
  if (userCount =? 0)%nat then
    plain 50
      [ ("description", Str "No user data available for tickets per user calculation") ]
  else
    let currentTicketsPerUser := ofNat (length currentTickets) / ofNat userCount in
    let previousTicketsPerUser := ofNat (length previousTickets) / ofNat userCount in
    let trendPercentage :=
      if lt 0 previousTicketsPerUser
      then ((currentTicketsPerUser - previousTicketsPerUser) / previousTicketsPerUser) * 100
      else 0 in
    let score :=
      if lt trendPercentage (-20) then 90
      else if lt trendPercentage (-10) then 75
      else if lt trendPercentage 0 then 60
      else if Qeq_bool trendPercentage 0 then 50
      else if lt trendPercentage 10 then 40
      else if lt trendPercentage 20 then 30
      else 20 in
    plain score
      [ ("current_quarter_tickets", numNat (length currentTickets));
        ("previous_quarter_tickets", numNat (length previousTickets));
        ("user_count", numNat userCount);
        ("current_tickets_per_user", Str (toFixed1 currentTicketsPerUser));
        ("previous_tickets_per_user", Str (toFixed1 previousTicketsPerUser));
        ("trend_percentage", numZ (Math_round trendPercentage));
        ("description",
         Str ("Current: " +:+ toFixed1 currentTicketsPerUser
              +:+ " tickets/user, Previous: " +:+ toFixed1 previousTicketsPerUser
              +:+ " tickets/user, Trend: "
              +:+ (if lt 0 trendPercentage then "+" else "")
              +:+ showZ (Math_round trendPercentage) +:+ "%")) ].

Definition calculateRepeatIssueRate (clientId : Z) : Component.t :=
  let tickets := ticket_findByDateRange db clientId quarterStart quarterEnd in
  if (length tickets =? 0)%nat then
    plain 50
      [ ("description", Str "No ticket data available for repeat issue calculation") ]
  else
    let categoryCount := fold_left countCategory tickets (∅ : gmap string Tally) in
    let repeatCategories :=
      length (List.filter isRepeat (map snd (map_to_list categoryCount))) in
    let totalCategories := size categoryCount in
    let repeatRate :=
      if (0 <? totalCategories)%nat
      then (ofNat repeatCategories / ofNat totalCategories) * 100 else 0 in
    let score := Math_max 0 (100 - repeatRate) in
    plain (inject_Z (Math_round score))
      [ ("total_tickets", numNat (length tickets));
        ("total_categories", numNat totalCategories);
        ("repeat_categories", numNat repeatCategories);
        ("repeat_rate", numZ (Math_round repeatRate));
        ("description",
         Str (ratioText repeatCategories totalCategories "categories"
                        (Math_round repeatRate) "have recurring issues")) ].

Definition calculateSLAPerformance (clientId : Z) : Component.t :=
  let totalTickets :=
    length (ticket_findByDateRange db clientId quarterStart quarterEnd) in
  let slaMet := ticket_countSLAMet db clientId quarterStart quarterEnd in
  if (totalTickets =? 0)%nat then
    plain 50
      [ ("description", Str "No ticket data available for SLA performance calculation") ]
  else
    let slaPercentage := (ofNat slaMet / ofNat totalTickets) * 100 in
    plain (inject_Z (Math_round slaPercentage))
      [ ("total_tickets", numNat totalTickets);
        ("sla_met", numNat slaMet);
        ("sla_percentage", numZ (Math_round slaPercentage));
        ("description",
         Str (ratioText slaMet totalTickets "tickets"
                        (Math_round slaPercentage) "met SLA")) ].

Definition calculateReopenRate (clientId : Z) : Component.t :=
  let totalTickets :=
    length (ticket_findByDateRange db clientId quarterStart quarterEnd) in
  let reopenedTickets := ticket_countReopened db clientId quarterStart quarterEnd in
  if (totalTickets =? 0)%nat then
    plain 50
      [ ("description", Str "No ticket data available for reopen rate calculation") ]
  else
    let reopenPercentage := (ofNat reopenedTickets / ofNat totalTickets) * 100 in
    let score := Math_max 0 (100 - reopenPercentage * 2) in
    plain (inject_Z (Math_round score))
      [ ("total_tickets", numNat totalTickets);
        ("reopened_tickets", numNat reopenedTickets);
        ("reopen_percentage", numZ (Math_round reopenPercentage));
        ("description",
         Str (ratioText reopenedTickets totalTickets "tickets"
                        (Math_round reopenPercentage) "were reopened")) ].

(** The [filter] callback: weekend, or outside 08:00-18:00 local time. *)
Definition isAfterHours (ticket : Ticket) : bool :=
  match ticket_created_date ticket with
  | None => false
  | Some date =>
      let hour := getHours host date in
      let day := getDay host date in
      ((day =? 0) || (day =? 6) || (hour <? 8) || (18 <=? hour))%Z
  end.

Definition calculateAfterHoursIncidents (clientId : Z) : Component.t :=
  let tickets := ticket_findByDateRange db clientId quarterStart quarterEnd in
  if (length tickets =? 0)%nat then
    plain 50
      [ ("description", Str "No ticket data available for after-hours calculation") ]
  else
    let afterHoursTickets := List.filter isAfterHours tickets in
    let afterHoursPercentage :=
      (ofNat (length afterHoursTickets) / ofNat (length tickets)) * 100 in
    let score := Math_max 0 (100 - afterHoursPercentage * 1.5) in
    plain (inject_Z (Math_round score))
      [ ("total_tickets", numNat (length tickets));
        ("after_hours_tickets", numNat (length afterHoursTickets));
        ("after_hours_percentage", numZ (Math_round afterHoursPercentage));
        ("description",
         Str (ratioText (length afterHoursTickets) (length tickets) "tickets"
                        (Math_round afterHoursPercentage) "created after hours")) ].

Definition calculateExperienceScore (clientId : Z) : ScoreResult.t :=
  let ticketsPerUserTrend := calculateTicketsPerUserTrend clientId in
  let repeatIssueRate := calculateRepeatIssueRate clientId in
  let slaPerformance := calculateSLAPerformance clientId in
  let reopenRate := calculateReopenRate clientId in
  let afterHoursIncidents := calculateAfterHoursIncidents clientId in
  let components :=
    [ (ticketsPerUserTrend, 0.25); (repeatIssueRate, 0.20); (slaPerformance, 0.25);
      (reopenRate, 0.15); (afterHoursIncidents, 0.15) ] in
  let totalScore := weightedTotal components in
  let breakdown :=
    [ ("tickets_per_user_trend", entry ticketsPerUserTrend "25%");
      ("repeat_issue_rate", entry repeatIssueRate "20%");
      ("sla_performance", entry slaPerformance "25%");
      ("reopen_rate", entry reopenRate "15%");
      ("after_hours_incidents", entry afterHoursIncidents "15%") ] in
  {| ScoreResult.score := Some (Math_round totalScore);
     ScoreResult.error := None;
     ScoreResult.breakdown := breakdown;
     ScoreResult.computed_at := now host |}.
End Experience.

End Engine.

(* ===================================================================== *)
(** ** Errors and the effects of an adapter *)
(* ===================================================================== *)

(** A thrown JavaScript error object.  [AdapterError] and [OpenAIError]
    carry [details]; [AdapterError] carries [statusCode]; an HTTP client
    error carries [response.status] and [response.data]. *)
Module Err.
Record t := {
  name : string;
  message : string;
  details : option string;
  statusCode : option Z;
  response_status : option Z;
  response_data : option string }.

(** [new AdapterError(message, details, statusCode)] *)
Definition AdapterError (message details : string) (statusCode : Z) : t :=
  {| name := "AdapterError"; message := message; details := Some details;
     statusCode := Some statusCode; response_status := None;
     response_data := None |}.

(** [new OpenAIError(message, details)] *)
Definition OpenAIError (message details : string) : t :=
  {| name := "OpenAIError"; message := message; details := Some details;
     statusCode := None; response_status := None; response_data := None |}.

(** [new HallucinationDetectedError(message)] *)
Definition HallucinationDetectedError (message : string) : t :=
  {| name := "HallucinationDetectedError"; message := message; details := None;
     statusCode := None; response_status := None; response_data := None |}.
End Err.

(** A computation that may act on the outside world and may throw: the
    events so far (network requests sent, and the warnings the citation
    validator logs; the adapters' own log lines are not recorded), and a
    thrown error or a value. *)
Module Eff.
Inductive Event :=
| Request (path : string)
| Warning (text : string).

Definition M (A : Type) : Type := (list Event * (Err.t + A))%type.

Definition ret {A} (a : A) : M A := ([], inr a).
Definition throw {A} (e : Err.t) : M A := ([], inl e).

Definition bind {A B} (m : M A) (k : A -> M B) : M B :=
  match m with
  | (tr, inl e) => (tr, inl e)
  | (tr, inr a) => let '(tr', r) := k a in (tr ++ tr', r)
  end.

(** [try { m } catch (error) { h error }] *)
Definition catch {A} (m : M A) (h : Err.t -> M A) : M A :=
  match m with
  | (tr, inl e) => let '(tr', r) := h e in (tr ++ tr', r)
  | ok => ok
  end.

(** One request, answered by the remote service. *)
Definition get {A} (path : string) (reply : Err.t + A) : M A := ([Request path], reply).

(** [logger.warn(text, ...)] *)
Definition warn (text : string) : M unit := ([Warning text], inr tt).

(** [Promise.all([m1, m2])]: both run; a rejection rejects the whole
    (the model reports the first one in array order). *)
Definition both {A B} (m1 : M A) (m2 : M B) : M (A * B) :=
  match m1, m2 with
  | (t1, inr a), (t2, inr b) => (t1 ++ t2, inr (a, b))
  | (t1, inl e), (t2, _) => (t1 ++ t2, inl e)
  | (t1, inr _), (t2, inl e) => (t1 ++ t2, inl e)
  end.

(** [for (const x of l) { f x }] *)
Fixpoint forEach {A} (f : A -> M unit) (l : list A) : M unit :=
  match l with
  | [] => ret tt
  | x :: r => bind (f x) (fun _ => forEach f r)
  end.

Definition outcome {A} (m : M A) : Err.t + A := snd m.


End Eff.

(** The monad structure, for stdpp's [x ← m; k] and [m;; k]. *)
#[global] Instance eff_ret : MRet Eff.M := @Eff.ret.
#[global] Instance eff_bind : MBind Eff.M := fun A B k m => Eff.bind m k.

(* ===================================================================== *)
(** ** The adapters (adapters/*.js) *)
(* ===================================================================== *)

Module Adapters.
Import JS.

(** The argument of [sync]: a plain object with named fields, or some
    other value ([undefined], [null], a string, ...). *)
Inductive Credentials :=
| Fields (fields : gmap string JS.Val)
| NotAnObject (v : JS.Val).

(** [new Date(src)] and [new Date()], kept symbolic. *)
Inductive JsDate :=
| NewDate (src : string)
| DateNow.

(** [a || b] on optional strings: [undefined], [null] and [''] are falsy. *)
Definition present (s : option string) : bool :=
  match s with Some x => negb (String.eqb x "") | None => false end.
Definition orElse (a b : option string) : option string :=
  if present a then a else b.

(** *** Normalized entities, as the adapters populate them *)
Record NClient := {
  client_external_id : string;
  client_source : string;
  client_name : option string }.

Record NSite := {
  site_external_id : string;
  site_name : option string;
  site_address : string }.

Record NDevice := {
  nd_client_id : option Z;
  nd_site_id : option Z;
  nd_external_id : option string;
  nd_name : option string;
  nd_type : string;
  nd_os : option string;
  nd_managed : bool;
  nd_health_status : string;
  nd_last_seen : option JsDate }.

Record NAgreement := {
  agreement_external_id : string;
  agreement_mrr : Q;
  agreement_start_date : option JsDate;
  agreement_end_date : option JsDate }.

Record NTicket := {
  nt_external_id : string;
  nt_category : string;
  nt_priority : string;
  nt_status : string;
  nt_hours_spent : Q;
  nt_sla_met : bool;
  nt_reopen_count : Z;
  nt_created_date : option JsDate;
  nt_closed_date : option JsDate }.

Record NControl := {
  nc_client_id : option Z;
  nc_external_id : string;
  nc_control_type : string;
  nc_status : string;
  nc_baseline_name : option string;
  nc_computer_name : option string;
  nc_drift_items : list string;
  nc_details : option string;
  nc_last_checked : JsDate }.

(** Entities none of the exported adapters populates. *)
Inductive Unpopulated := .

Record NormalizedData := {
  clients : list NClient;
  sites : list NSite;
  contacts : list Unpopulated;
  users : list Unpopulated;
  devices : list NDevice;
  agreements : list NAgreement;
  tickets : list NTicket;
  controls : list NControl;
  risks : list Unpopulated;
  recommendations : list Unpopulated }.

(* ------------------------------------------------------------------- *)
(** *** adapters/base-adapter.js *)
(* ------------------------------------------------------------------- *)

(** [credentials[field]] *)
Definition field (fields : gmap string JS.Val) (name : string) : JS.Val :=
  match fields !! name with Some v => v | None => Undefined end.

(** [missing.join(', ')] *)
Fixpoint join (sep : string) (l : list string) : string :=
  match l with
  | [] => ""
  | [x] => x
  | x :: r => x +:+ sep +:+ join sep r
  end.

Definition validateCredentials (credentials : Credentials) (requiredFields : list string)
  : Eff.M unit :=
  match credentials with
  | NotAnObject _ =>
      Eff.throw (Err.AdapterError "Invalid credentials" "Credentials must be an object" 400)
  | Fields fields =>
      let missing := List.filter (fun f => negb (truthy (field fields f))) requiredFields in
      if (0 <? length missing)%nat then
        Eff.throw (Err.AdapterError "Missing required credentials"
                                    ("Missing fields: " +:+ join ", " missing) 400)
      else mret tt
  end.

(** [error.response?.status || 500] *)
Definition statusOr500 (error : Err.t) : Z :=
  match Err.response_status error with
  | Some st => if (st =? 0)%Z then 500%Z else st
  | None => 500%Z
  end.

Definition responseStatusIs (error : Err.t) (code : Z) : bool :=
  match Err.response_status error with Some st => (st =? code)%Z | None => false end.

(** [src ? new Date(src) : null] *)
Definition dateOrNull (src : option string) : option JsDate :=
  match src with
  | Some x => if String.eqb x "" then None else Some (NewDate x)
  | None => None
  end.

Definition emptyData : NormalizedData :=
  {| clients := []; sites := []; contacts := []; users := []; devices := [];
     agreements := []; tickets := []; controls := []; risks := [];
     recommendations := [] |}.

(* ------------------------------------------------------------------- *)
(** *** adapters/immy-adapter.js *)
(* ------------------------------------------------------------------- *)
Module Immy.

(** The vendor's computer and compliance-report objects. *)
Record Computer := {
  id : option Z;
  computerId : option Z;
  name : option string;
  computerName : option string;
  type : option string;
  operatingSystem : option string;
  os : option string;
  status : option string;
  health : option string;
  lastSeen : option string }.

Record Report := {
  r_id : option Z;
  r_computerId : option Z;
  r_baselineId : option Z;
  r_status : option string;
  r_compliant : option bool;
  r_baselineName : option string;
  r_computerName : option string;
  r_driftItems : option (list string);
  r_details : option string;
  r_lastChecked : option string }.

(** What the Immy.Bot API answers on each endpoint ([baselines] are
    only counted). *)
Record Api := {
  get_computers : Err.t + list Computer;
  get_devices : Err.t + list Computer;
  get_baselines : Err.t + list unit;
  get_compliance_reports : Err.t + list Report;
  get_drift_reports : Err.t + list Report }.

Definition mapImmyTypeToDeviceType (immyType : option string) : string :=
  match immyType with
  | None => "endpoint"
  | Some immyType =>
      if String.eqb immyType "" then "endpoint" else
      let lower := toLowerCase immyType in
      if includes lower "server" then "server"
      else if includes lower "workstation" || includes lower "laptop"
              || includes lower "desktop" then "endpoint"
      else "endpoint"
  end.

Definition mapImmyHealthStatus (immyStatus : option string) : string :=
  match immyStatus with
  | None => "unknown"
  | Some immyStatus =>
      if String.eqb immyStatus "" then "unknown" else
      let lower := toLowerCase immyStatus in
      if includes lower "healthy" || includes lower "compliant"
         || includes lower "pass" then "healthy"
      else if includes lower "warning" || includes lower "drift" then "warning"
      else if includes lower "critical" || includes lower "fail"
              || includes lower "non-compliant" then "critical"
      else "healthy"
  end.

Definition normalizeDevice (computer : Computer) : NDevice :=
  {| nd_client_id := None;
     nd_site_id := None;
     nd_external_id :=
       match id computer with
       | Some i => Some (showZ i)
       | None => option_map showZ (computerId computer)
       end;
     nd_name := orElse (name computer) (computerName computer);
     nd_type := mapImmyTypeToDeviceType (type computer);
     nd_os := orElse (operatingSystem computer) (os computer);
     nd_managed := true;
     nd_health_status :=
       mapImmyHealthStatus (orElse (status computer) (health computer));
     nd_last_seen := dateOrNull (lastSeen computer) |}.

(** The argument [report.status || report.compliant]. *)
Inductive StatusArg :=
| SText (text : string)
| SFlag (flag : bool)
| SAbsent.

Definition mapComplianceStatus (status : StatusArg) : string :=
  match status with
  | SFlag flag => if flag then "pass" else "fail"
  | SAbsent => "unknown"
  | SText text =>
      if String.eqb text "" then "unknown" else
      let lower := toLowerCase text in
      if includes lower "pass" || includes lower "compliant" then "pass"
      else if includes lower "fail" || includes lower "non-compliant" then "fail"
      else "unknown"
  end.

Definition showOpt (z : option Z) : string :=
  match z with Some i => showZ i | None => "undefined" end.

Definition normalizeControl (report : Report) : NControl :=
  {| nc_client_id := None;
     nc_external_id :=
       match r_id report with
       | Some i => showZ i
       | None => showOpt (r_computerId report) +:+ "-" +:+ showOpt (r_baselineId report)
       end;
     nc_control_type := "immy_baseline";
     nc_status :=
       mapComplianceStatus
         (if present (r_status report)
          then match r_status report with Some t => SText t | None => SAbsent end
          else match r_compliant report with Some b => SFlag b | None => SAbsent end);
     nc_baseline_name := r_baselineName report;
     nc_computer_name := r_computerName report;
     nc_drift_items := match r_driftItems report with Some l => l | None => [] end;
     nc_details := r_details report;
     nc_last_checked :=
       match dateOrNull (r_lastChecked report) with Some d => d | None => DateNow end |}.

Section WithApi.
Variable api : Api.

Definition fetchComputers : Eff.M (list Computer) :=
  Eff.catch (Eff.get "/computers" (get_computers api))
            (fun _ => Eff.get "/devices" (get_devices api)).

Definition fetchBaselines : Eff.M (list unit) :=
  Eff.catch (Eff.get "/baselines" (get_baselines api)) (fun _ => mret []).

Definition fetchComplianceReports : Eff.M (list Report) :=
  Eff.catch (Eff.get "/compliance/reports" (get_compliance_reports api))
            (fun _ => Eff.catch (Eff.get "/drift-reports" (get_drift_reports api))
                                (fun _ => mret [])).

Definition sync (credentials : Credentials) : Eff.M NormalizedData :=
  validateCredentials credentials ["apiKey"; "baseUrl"];;
  (* initializeClient: builds the HTTP client, sends nothing *)
  Eff.catch
    ('(computers, (baselines, complianceReports)) ←
        Eff.both fetchComputers (Eff.both fetchBaselines fetchComplianceReports);
     mret {| clients := []; sites := []; contacts := []; users := [];
             devices := map normalizeDevice computers;
             agreements := []; tickets := [];
             controls := map normalizeControl complianceReports;
             risks := []; recommendations := [] |})
    (fun error =>
       if responseStatusIs error 401 || responseStatusIs error 403 then
         Eff.throw (Err.AdapterError "Immy.Bot authentication failed"
                                     "Invalid API key" 401)
       else if String.eqb (Err.name error) "AdapterError" then Eff.throw error
       else Eff.throw (Err.AdapterError "Immy.Bot API error" (Err.message error)
                                        (statusOr500 error))).
End WithApi.
End Immy.

(* ------------------------------------------------------------------- *)
(** *** adapters/connectwise-adapter.js *)
(* ------------------------------------------------------------------- *)
Module ConnectWise.

Record Company := {
  id : Z;
  name : option string;
  identifier : option string;
  addressLine1 : option string;
  addressLine2 : option string;
  city : option string;
  state : option string;
  zip : option string }.

Record Agreement := {
  a_id : Z;
  billAmount : option Q;
  startDate : option string;
  endDate : option string }.

Record Ticket := {
  t_id : Z;
  type_name : option string;        (* [ticket.type?.name] *)
  priority_name : option string;
  status_name : option string;
  actualHours : option Q;
  respondedSkippedMinutes : option Q;
  resolveSlaMinutes : option Q;
  dateEntered : option string;
  closedDate : option string }.

Record Configuration := {
  c_id : Z;
  c_name : option string;
  c_type_name : option string;      (* [config.type?.name] *)
  osInfo : option string;
  lastUpdate : option string }.

Record Api := {
  get_companies : Err.t + list Company;
  get_agreements : Err.t + list Agreement;
  get_tickets : Err.t + list Ticket;
  get_configurations : Err.t + list Configuration }.

Definition normalizeClient (company : Company) : NClient :=
  {| client_external_id := showZ (id company);
     client_source := "connectwise";
     client_name := orElse (name company) (identifier company) |}.

Definition normalizeSites (company : Company) : list NSite :=
  [ {| site_external_id := showZ (id company) +:+ "-main";
       site_name := name company;
       site_address :=
         join ", "
           (omap (fun part => if present part then part else None)
                 [ addressLine1 company; addressLine2 company; city company;
                   state company; zip company ]) |} ].

Definition normalizeContacts (company : Company) : list Unpopulated := [].

Definition mapConfigTypeToDeviceType (cwType : option string) : string :=
  match cwType with
  | None => "endpoint"
  | Some cwType =>
      if String.eqb cwType "" then "endpoint" else
      let lower := toLowerCase cwType in
      if includes lower "server" then "server"
      else if includes lower "switch" || includes lower "router"
              || includes lower "firewall" then "network"
      else "endpoint"
  end.

Definition normalizeDevice (config : Configuration) : NDevice :=
  {| nd_client_id := None;
     nd_site_id := None;
     nd_external_id := Some (showZ (c_id config));
     nd_name := c_name config;
     nd_type := mapConfigTypeToDeviceType (c_type_name config);
     nd_os := if present (osInfo config) then osInfo config else None;
     nd_managed := true;
     nd_health_status := "healthy";   (* Default, would need more data *)
     nd_last_seen := dateOrNull (lastUpdate config) |}.

Definition normalizeAgreement (agreement : Agreement) : NAgreement :=
  {| agreement_external_id := showZ (a_id agreement);
     agreement_mrr := match billAmount agreement with Some m => m | None => 0 end;
     agreement_start_date := dateOrNull (startDate agreement);
     agreement_end_date := dateOrNull (endDate agreement) |}.

Definition textOr (s : option string) (default : string) : string :=
  match s with
  | Some x => if String.eqb x "" then default else x
  | None => default
  end.

Definition normalizeTicket (ticket : Ticket) : NTicket :=
  {| nt_external_id := showZ (t_id ticket);
     nt_category := textOr (type_name ticket) "Unknown";
     nt_priority := textOr (priority_name ticket) "Normal";
     nt_status := textOr (status_name ticket) "Unknown";
     nt_hours_spent := match actualHours ticket with Some h => h | None => 0 end;
     nt_sla_met :=
       match respondedSkippedMinutes ticket, resolveSlaMinutes ticket with
       | Some skipped, Some resolve => Qeq_bool skipped 0 && Qle_bool 0 resolve
       | _, _ => false
       end;
     nt_reopen_count := 0%Z;
     nt_created_date := dateOrNull (dateEntered ticket);
     nt_closed_date := dateOrNull (closedDate ticket) |}.

Section WithApi.
Variable api : Api.

(** The response interceptor installed by [initializeClient]. *)
Definition intercept {A} (reply : Err.t + A) : Err.t + A :=
  match reply with
  | inl error =>
      if responseStatusIs error 429 then
        inl (Err.AdapterError "ConnectWise rate limit exceeded"
               (match Err.response_data error with Some d => d | None => "" end)
               429)
      else inl error
  | ok => ok
  end.

Definition fetchCompanies : Eff.M (list Company) :=
  Eff.get "/company/companies" (intercept (get_companies api)).
Definition fetchAgreements : Eff.M (list Agreement) :=
  Eff.get "/finance/agreements" (intercept (get_agreements api)).
Definition fetchTickets : Eff.M (list Ticket) :=
  Eff.get "/service/tickets" (intercept (get_tickets api)).
Definition fetchConfigurations : Eff.M (list Configuration) :=
  Eff.get "/company/configurations" (intercept (get_configurations api)).

Definition sync (credentials : Credentials) : Eff.M NormalizedData :=
  validateCredentials credentials
    ["companyId"; "publicKey"; "privateKey"; "clientId"; "baseUrl"];;
  (* initializeClient: builds the HTTP client, sends nothing *)
  Eff.catch
    ('(companies, (agreements, (tickets, configurations))) ←
        Eff.both fetchCompanies
          (Eff.both fetchAgreements (Eff.both fetchTickets fetchConfigurations));
     mret {| clients := map normalizeClient companies;
             sites := flat_map normalizeSites companies;
             contacts := flat_map normalizeContacts companies;
             users := [];
             devices := map normalizeDevice configurations;
             agreements := map normalizeAgreement agreements;
             tickets := map normalizeTicket tickets;
             controls := []; risks := []; recommendations := [] |})
    (fun error =>
       if responseStatusIs error 401 then
         Eff.throw (Err.AdapterError "ConnectWise authentication failed"
                                     "Invalid API credentials" 401)
       else if String.eqb (Err.name error) "AdapterError" then Eff.throw error
       else Eff.throw (Err.AdapterError "ConnectWise API error" (Err.message error)
                                        (statusOr500 error))).
End WithApi.
End ConnectWise.

(* ------------------------------------------------------------------- *)
(** *** adapters/m365-adapter.js: the exported class *)
(* ------------------------------------------------------------------- *)
Module M365AdapterSimplified.
(** [sync] logs a warning and returns the empty structure. *)
Definition sync (credentials : Credentials) : Eff.M NormalizedData :=
  mret emptyData.
End M365AdapterSimplified.

(* ------------------------------------------------------------------- *)
(** *** routes/sync.js: which adapter each route constructs *)
(* ------------------------------------------------------------------- *)
Inductive Route :=
| sync_connectwise
| sync_immy
| sync_m365.

Record Vendors := {
  connectwiseApi : ConnectWise.Api;
  immyApi : Immy.Api }.

(** [new Adapter(config).sync(credentials)] as the route handler calls it;
    [require('../adapters/m365-adapter')] is [M365AdapterSimplified]. *)
Definition adapterSync (vendors : Vendors) (route : Route) (credentials : Credentials)
  : Eff.M NormalizedData :=
  match route with
  | sync_connectwise => ConnectWise.sync (connectwiseApi vendors) credentials
  | sync_immy => Immy.sync (immyApi vendors) credentials
  | sync_m365 => M365AdapterSimplified.sync credentials
  end.

(** The required-field list each route's adapter declares ([M365Adapter],
    the full class of adapters/m365-adapter.js, declares the last one). *)
Definition requiredFields (route : Route) : list string :=
  match route with
  | sync_connectwise => ["companyId"; "publicKey"; "privateKey"; "clientId"; "baseUrl"]
  | sync_immy => ["apiKey"; "baseUrl"]
  | sync_m365 => ["tenantId"; "clientId"; "clientSecret"]
  end.
End Adapters.

(* ===================================================================== *)
(** ** Narrative generation and the citation gate (qbr/narrative-generator.js) *)
(* ===================================================================== *)

Module Narrative.
Import JS.

(** The parts of [input] the validator reads. *)
Record TicketRow := {
  external_id : option string;
  id : Z }.

Record Item := {
  name : option string }.

Record Input := {
  client_name : string;
  recent_tickets : option (list TicketRow);
  lifecycle_items : option (list Item) }.

(** A parsed recommendation: [evidence] may be missing. *)
Record Recommendation := {
  title : string;
  evidence : option (list string) }.

Record Narrative := {
  trends : string;
  executive_summary : string;
  recommendations : list Recommendation;
  discussion_points : list string }.

Definition dquote : string := String (ascii_of_nat 34) EmptyString.

(* ------------------------------------------------------------------- *)
(** *** The two citation patterns *)
(* ------------------------------------------------------------------- *)

(** [\d] *)
Definition isDigit (c : ascii) : bool :=
  let n := nat_of_ascii c in ((48 <=? n) && (n <=? 57))%nat.

(** [[^\]]] *)
Definition notBracket (c : ascii) : bool := negb (Ascii.eqb c "]"%char).

(** The longest prefix whose characters satisfy [p], and what follows. *)
Fixpoint span (p : ascii -> bool) (s : string) : string * string :=
  match s with
  | String c r =>
      if p c then let '(run, rest) := span p r in (String c run, rest)
      else (EmptyString, s)
  | EmptyString => (EmptyString, EmptyString)
  end.

(** [s] without the prefix [pre], if it starts with it. *)
Fixpoint stripPrefix (pre s : string) : option string :=
  match pre, s with
  | EmptyString, _ => Some s
  | String a pre', String b s' => if Ascii.eqb a b then stripPrefix pre' s' else None
  | String _ _, EmptyString => None
  end.

(** A match of [<opening>(<class>+)\]] anchored at the start of [s]: the
    class excludes the closing bracket, so the group is the longest run. *)
Definition matchHere (opening : string) (class : ascii -> bool) (s : string)
  : option string :=
  match stripPrefix opening s with
  | None => None
  | Some after =>
      match span class after with
      | (EmptyString, _) => None
      | (run, String c _) => if Ascii.eqb c "]"%char then Some run else None
      | (_, EmptyString) => None
      end
  end.

(** [citation.match(/<opening>(<class>+)\]/)]: group 1 of the leftmost match. *)
Fixpoint firstMatch (opening : string) (class : ascii -> bool) (s : string)
  : option string :=
  match matchHere opening class s with
  | Some group => Some group
  | None =>
      match s with
      | EmptyString => None
      | String _ r => firstMatch opening class r
      end
  end.

Definition matchTicket : string -> option string := firstMatch "[Ticket #" isDigit.
Definition matchDevice : string -> option string := firstMatch "[Device: " notBracket.

(* ------------------------------------------------------------------- *)
(** *** validateCitations *)
(* ------------------------------------------------------------------- *)

(** [input.recent_tickets?.some(t => t.external_id === ticketId
                                     || t.id.toString() === ticketId)] *)
Definition ticketExists (input : Input) (ticketId : string) : bool :=
  match recent_tickets input with
  | None => false
  | Some rows =>
      existsb (fun t => Store.isStr (external_id t) ticketId
                        || String.eqb (showZ (id t)) ticketId) rows
  end.

(** [input.lifecycle_items?.some(d => d.name === deviceName)] *)
Definition deviceExists (input : Input) (deviceName : string) : bool :=
  match lifecycle_items input with
  | None => false
  | Some items => existsb (fun d => Store.isStr (name d) deviceName) items
  end.

(** The body of the inner loop, for one citation. *)
Definition checkCitation (input : Input) (rec : Recommendation) (citation : string)
  : Eff.M unit :=
  match matchTicket citation with
  | Some ticketId =>
      if ticketExists input ticketId then mret tt
      else Eff.warn ("Ticket #" +:+ ticketId +:+ " cited but not found in data")
  | None => mret tt
  end;;
  match matchDevice citation with
  | Some deviceName =>
      if deviceExists input deviceName then mret tt
      else Eff.warn ("Device " +:+ dquote +:+ deviceName +:+ dquote
                     +:+ " cited but not found in data")
  | None => mret tt
  end.

(** The body of the outer loop, for one recommendation. *)
Definition checkRecommendation (input : Input) (rec : Recommendation) : Eff.M unit :=
  match evidence rec with
  | None | Some [] =>
      Eff.throw (Err.HallucinationDetectedError
                   ("Recommendation " +:+ dquote +:+ title rec +:+ dquote
                    +:+ " has no evidence citations"))
  | Some citations => Eff.forEach (checkCitation input rec) citations
  end.

Definition validateCitations (recommendations : list Recommendation) (input : Input)
  : Eff.M unit :=
  Eff.forEach (checkRecommendation input) recommendations.

(* ------------------------------------------------------------------- *)
(** *** generateNarrative *)
(* ------------------------------------------------------------------- *)

(** The four prompts. *)
Inductive Job :=
| Trends
| ExecutiveSummary
| Actions
| DiscussionPoints.

Section Generator.
(** [config.openai.maxRetries] *)
Variable maxRetries : nat.
(** [this.openai.chat.completions.create] for a prompt, at each attempt. *)
Variable completions : Job -> nat -> Err.t + string.
(** [JSON.parse] of the two JSON-mode responses. *)
Variable parseRecommendations : string -> Err.t + list Recommendation.
Variable parseTopics : string -> Err.t + list string.

Definition TypeError (message : string) : Err.t :=
  {| Err.name := "TypeError"; Err.message := message; Err.details := None;
     Err.statusCode := None; Err.response_status := None;
     Err.response_data := None |}.

(** The retry loop of [callOpenAI], from attempt [attempt] with
    [remaining] attempts left. *)
Fixpoint attempts (job : Job) (attempt remaining : nat) (lastError : option Err.t)
  : Eff.M string :=
  match remaining with
  | O =>
      match lastError with
      | Some e =>
          Eff.throw (Err.OpenAIError
                       ("OpenAI API timeout after " +:+ showNat maxRetries +:+ " retries")
                       (Err.message e))
      | None => Eff.throw (TypeError "Cannot read properties of undefined")
      end
  | S remaining' =>
      Eff.catch (Eff.get "/chat/completions" (completions job attempt))
                (fun error => attempts job (attempt + 1) remaining' (Some error))
  end.

Definition callOpenAI (job : Job) : Eff.M string := attempts job 1 maxRetries None.

Definition spotTrends : Eff.M string := callOpenAI Trends.
Definition writeExecutiveSummary : Eff.M string := callOpenAI ExecutiveSummary.
Definition synthesizeActions : Eff.M (list Recommendation) :=
  response ← callOpenAI Actions; ([], parseRecommendations response).
Definition prepareDiscussionPoints : Eff.M (list string) :=
  response ← callOpenAI DiscussionPoints; ([], parseTopics response).

Definition generateNarrative (input : Input) : Eff.M Narrative :=
  Eff.catch
    ('(trends, (executiveSummary, (recommendations, discussionPoints))) ←
        Eff.both spotTrends
          (Eff.both writeExecutiveSummary
             (Eff.both synthesizeActions prepareDiscussionPoints));
     validateCitations recommendations input;;
     mret {| trends := trends;
             executive_summary := executiveSummary;
             recommendations := recommendations;
             discussion_points := discussionPoints |})
    (fun error =>
       Eff.throw (Err.OpenAIError "Failed to generate narrative" (Err.message error))).
End Generator.
End Narrative.


(* ===================================================================== *)
(** ** Vocabulary of the specification *)
(* ===================================================================== *)

(** [result.breakdown[key]], without its weight. *)
Definition breakdownAt (r : ScoreResult.t) (key : string) : option Component.t :=
  option_map (fun kv => Entry.component (snd kv))
             (List.find (fun kv => String.eqb (fst kv) key) (ScoreResult.breakdown r)).

(** The component [key] of [r] has score [q]. *)
Definition scoreAt (r : ScoreResult.t) (key : string) (q : Q) : Prop :=
  match breakdownAt r key with
  | Some c => Component.score c == q
  | None => False
  end.

(** A component score between 0 and 100. *)
Definition inRange (c : Component.t) : Prop :=
  0 <= Component.score c /\ Component.score c <= 100.

(** A result whose total, when there is one, and whose component scores
    all lie between 0 and 100. *)
Definition scoresInRange (r : ScoreResult.t) : Prop :=
  (forall s, ScoreResult.score r = Some s -> (0 <= s <= 100)%Z)
  /\ Forall (fun kv => inRange (Entry.component (snd kv))) (ScoreResult.breakdown r).

(** The Standards result for a client without devices. *)
Definition insufficientData (host : Host) : ScoreResult.t :=
  {| ScoreResult.score := None;
     ScoreResult.error := Some "Insufficient data: no devices found";
     ScoreResult.breakdown := [];
     ScoreResult.computed_at := now host |}.

(** The denominators of the two control-based Standards components. *)
Definition totalControls (db : Store.DB) (clientId : Z) : nat :=
  (Store.control_countByStatus db clientId "pass"
   + Store.control_countByStatus db clientId "fail"
   + Store.control_countByStatus db clientId "unknown")%nat.

Definition secureScoreControls (db : Store.DB) (clientId : Z) : nat :=
  length (Store.control_findByType db clientId "m365_secure_score").

(** A small calendar for the examples: months of 10 time units, quarters
    of 30; every instant is a Wednesday at noon. *)
Definition exampleHost (now : Z) : Host :=
  {| now := now;
     startOfQuarter := fun t => (30 * (t / 30))%Z;
     endOfQuarter := fun t => (30 * (t / 30) + 29)%Z;
     subMonths := fun t n => (t - 10 * n)%Z;
     getHours := fun _ => 12%Z;
     getDay := fun _ => 3%Z |}.

Module Scenario.
Import Store.

Definition device (i : nat) (managed : bool) (health : string) : Device :=
  {| device_id := Z.of_nat i; device_client_id := Some 1%Z;
     device_managed := Some managed; device_health_status := Some health |}.

Definition control (i : nat) (type status : string) : Control :=
  {| control_id := Z.of_nat i; control_client_id := Some 1%Z;
     control_type := Some type; control_status := Some status |}.

Definition ticket (i : nat) (created : Z) : Ticket :=
  {| ticket_id := Z.of_nat i; ticket_client_id := Some 1%Z;
     ticket_category := Some "Email"; ticket_sla_met := Some true;
     ticket_reopen_count := Some 0%Z; ticket_created_date := Some created |}.

Definition user (i : nat) : User :=
  {| user_id := Z.of_nat i; user_client_id := Some 1%Z;
     user_mfa_enabled := Some true; user_risk_level := Some "none" |}.

(** 50 devices: 45 managed, 42 healthy; 50 controls: 40 passing, of which
    25 are secure-score controls with 18 passing (72 percent). *)
Definition fifty : DB :=
  {| devices :=
       map (fun i => device i (i <? 45)%nat
                       (if (i <? 42)%nat then "healthy" else "warning")) (seq 0 50);
     controls :=
       map (fun i => control i "m365_secure_score"
                       (if (i <? 18)%nat then "pass" else "fail")) (seq 0 25)
       ++ map (fun i => control (25 + i) "immy_baseline"
                          (if (i <? 22)%nat then "pass" else "fail")) (seq 0 25);
     users := []; tickets := []; risks := [] |}.

(** One device and nothing else. *)
Definition oneDevice : DB :=
  {| devices := [device 0 true "healthy"]; controls := [];
     users := []; tickets := []; risks := [] |}.

(** No device, but controls, users and tickets. *)
Definition noDevices : DB :=
  {| devices := []; controls := [control 0 "immy_baseline" "pass"];
     users := [user 0]; tickets := [ticket 0 40]; risks := [] |}.


End Scenario.







(** The number of the client's tickets in the current and in the previous
    quarter. *)
Definition currentTickets (host : Host) (db : Store.DB) (clientId : Z) : nat :=
  length (Store.ticket_findByDateRange db clientId
            (startOfQuarter host (now host)) (endOfQuarter host (now host))).

Definition previousTickets (host : Host) (db : Store.DB) (clientId : Z) : nat :=
  length (Store.ticket_findByDateRange db clientId
            (startOfQuarter host (subMonths host (now host) 3))
            (endOfQuarter host (subMonths host (now host) 3))).

(** The quarter-over-quarter percent change in tickets per user. *)
Definition ticketsPerUserChange (host : Host) (db : Store.DB) (clientId : Z) : Q :=
  let users := JS.ofNat (Store.user_countByClientId db clientId) in
  let current := JS.ofNat (currentTickets host db clientId) / users in
  let previous := JS.ofNat (previousTickets host db clientId) / users in
  (current - previous) / previous * 100.

(** The keywords [mapImmyHealthStatus] looks for in a lower-cased status. *)
Definition healthKeywords : list string :=
  ["healthy"; "compliant"; "pass"; "warning"; "drift"; "critical"; "fail";
   "non-compliant"].

(** A status text the Immy mapping does not recognize. *)
Definition unrecognized (status : string) : Prop :=
  Forall (fun keyword => JS.includes (JS.toLowerCase status) keyword = false)
         healthKeywords.

(** A required field that the credentials object does not supply: absent,
    or holding a falsy value. *)
Definition missing (fields : gmap string JS.Val) (name : string) : Prop :=
  JS.truthy (Adapters.field fields name) = false.


Module Sample.
Import Adapters.

Definition unreachable : Err.t :=
  {| Err.name := "Error"; Err.message := "connect ECONNREFUSED";
     Err.details := None; Err.statusCode := None;
     Err.response_status := None; Err.response_data := None |}.

(** Vendors whose every endpoint is down. *)
Definition vendors : Vendors :=
  {| connectwiseApi :=
       {| ConnectWise.get_companies := inl unreachable;
          ConnectWise.get_agreements := inl unreachable;
          ConnectWise.get_tickets := inl unreachable;
          ConnectWise.get_configurations := inl unreachable |};
     immyApi :=
       {| Immy.get_computers := inl unreachable;
          Immy.get_devices := inl unreachable;
          Immy.get_baselines := inl unreachable;
          Immy.get_compliance_reports := inl unreachable;
          Immy.get_drift_reports := inl unreachable |} |}.

(** An Immy computer whose status is the text [offline]. *)
Definition offline : Immy.Computer :=
  {| Immy.id := Some 7%Z; Immy.computerId := None;
     Immy.name := Some "WS-ACCT-01"; Immy.computerName := None;
     Immy.type := Some "Workstation";
     Immy.operatingSystem := Some "Windows 11"; Immy.os := None;
     Immy.status := Some "offline"; Immy.health := None;
     Immy.lastSeen := None |}.

(** An Immy computer without status and health. *)
Definition silent : Immy.Computer :=
  {| Immy.id := Some 8%Z; Immy.computerId := None;
     Immy.name := Some "WS-ACCT-02"; Immy.computerName := None;
     Immy.type := None; Immy.operatingSystem := None; Immy.os := None;
     Immy.status := None; Immy.health := None; Immy.lastSeen := None |}.

(** A ConnectWise configuration: the vendor sends no health telemetry. *)
Definition firewall : ConnectWise.Configuration :=
  {| ConnectWise.c_id := 3%Z; ConnectWise.c_name := Some "FW-MAIN";
     ConnectWise.c_type_name := Some "Firewall";
     ConnectWise.osInfo := None; ConnectWise.lastUpdate := None |}.

(** Credentials with an API key and no base URL. *)
Definition keyOnly : gmap string JS.Val := {[ "apiKey" := JS.Str "secret" ]}.
End Sample.

(** A recommendation whose evidence list is missing or empty. *)
Definition lacksEvidence (rec : Narrative.Recommendation) : Prop :=
  Narrative.evidence rec = None \/ Narrative.evidence rec = Some [].

(** [m] threw the error class named [name]. *)
Definition raises {A : Type} (m : Eff.M A) (name : string) : Prop :=
  exists e, Eff.outcome m = inl e /\ Err.name e = name.

(** [m] ran to its end without throwing. *)
Definition passes (m : Eff.M unit) : Prop := Eff.outcome m = inr tt.


Module Cited.
Import Narrative.

(** Generated data holding ticket 12345 and device WS-ACCT-01. *)
Definition input : Input :=
  {| client_name := "Acme Corporation";
     recent_tickets := Some [ {| external_id := Some "CW-77"; id := 12345%Z |} ];
     lifecycle_items := Some [ {| name := Some "WS-ACCT-01" |} ] |}.

Definition grounded : Recommendation :=
  {| title := "Replace aging workstation";
     evidence := Some ["[Ticket #12345]"; "[Device: WS-ACCT-01]"] |}.

Definition unfounded : Recommendation :=
  {| title := "Replace aging firewall";
     evidence := Some ["[Device: FW-MAIN-99]"; "[Ticket #999]"] |}.

Definition bare : Recommendation :=
  {| title := "Enable MFA"; evidence := Some [] |}.

Definition untitled : Recommendation :=
  {| title := "Review backups"; evidence := None |}.
End Cited.

(** The four generation jobs that [generateNarrative] awaits together. *)
Definition fourJobs (maxRetries : nat) (completions : Narrative.Job -> nat -> Err.t + string)
    (parseRecommendations : string -> Err.t + list Narrative.Recommendation)
    (parseTopics : string -> Err.t + list string)
  : Eff.M (string * (string * (list Narrative.Recommendation * list string))) :=
  Eff.both (Narrative.spotTrends maxRetries completions)
    (Eff.both (Narrative.writeExecutiveSummary maxRetries completions)
       (Eff.both (Narrative.synthesizeActions maxRetries completions parseRecommendations)
                 (Narrative.prepareDiscussionPoints maxRetries completions parseTopics))).

Module Generated.
(** A model that answers every prompt at once; the parsed actions are
    the given recommendations. *)
Definition completions (job : Narrative.Job) (attempt : nat) : Err.t + string :=
  inr "generated text".
Definition parseTopics (response : string) : Err.t + list string :=
  inr ["Topic 1: Security roadmap"].
Definition parseAs (recs : list Narrative.Recommendation) (response : string)
  : Err.t + list Narrative.Recommendation := inr recs.
End Generated.


(** The arithmetic of the refuted scenarios in binary64, for the
    cross-check at the end of the file. *)
Module Binary64.
Local Open Scope float_scope.

Definition ofCount (n : Z) : float := PrimFloat.of_uint63 (Uint63.of_Z n).

(** [(a / b) * 100] *)
Definition percentage (a b : Z) : float := ofCount a / ofCount b * 100.

(** [trendPercentage] of [calculateTicketsPerUserTrend], with tickets in
    the previous quarter. *)
Definition trendPercentage (current previous users : Z) : float :=
  let currentTicketsPerUser := ofCount current / ofCount users in
  let previousTicketsPerUser := ofCount previous / ofCount users in
  (currentTicketsPerUser - previousTicketsPerUser) / previousTicketsPerUser * 100.

Definition trendScore (trendPercentage : float) : Z :=
  if trendPercentage <? -20 then 90%Z
  else if trendPercentage <? -10 then 75%Z
  else if trendPercentage <? 0 then 60%Z
  else if trendPercentage =? 0 then 50%Z
  else if trendPercentage <? 10 then 40%Z
  else if trendPercentage <? 20 then 30%Z
  else 20%Z.

(** The [reduce] of [calculateStandardsScore] on five component scores;
    the weights are the doubles nearest to the decimal literals. *)
Definition standardsTotal (a b c d e : float) : float :=
  0 + a * 0x1.999999999999ap-3 + b * 0x1.3333333333333p-2
    + c * 0x1.999999999999ap-3 + d * 0x1.3333333333333p-3
    + e * 0x1.3333333333333p-3.
End Binary64.

(* ===================================================================== *)
(** ** Arithmetic of counts, percentages and rounding *)
(* ===================================================================== *)

Section Arithmetic.
Import JS.

Lemma ofNat_nonneg (n : nat) : 0 <= ofNat n.
Proof.
  unfold ofNat. change 0 with (inject_Z 0). rewrite <- Zle_Qle. lia.
Qed.

Lemma ofNat_le (a b : nat) : (a <= b)%nat -> ofNat a <= ofNat b.
Proof.
  intros H. unfold ofNat. rewrite <- Zle_Qle. lia.
Qed.

Lemma ofNat_pos (n : nat) : n <> 0%nat -> 0 < ofNat n.
Proof.
  intros H. unfold ofNat. change 0 with (inject_Z 0). rewrite <- Zlt_Qlt. lia.
Qed.

(** A share [a / b] of a non-empty whole lies between 0 and 1. *)
Lemma share_bounds (a b : nat) :
  (a <= b)%nat -> b <> 0%nat -> 0 <= ofNat a / ofNat b /\ ofNat a / ofNat b <= 1.
Proof.
  intros Hab Hb.
  pose proof (ofNat_pos b Hb) as Hpos.
  pose proof (ofNat_nonneg a) as Ha.
  pose proof (ofNat_le a b Hab) as Hle.
  split.
  - apply Qle_shift_div_l; [exact Hpos | lra].
  - apply Qle_shift_div_r; [exact Hpos | lra].
Qed.

Lemma percentage_bounds (a b : nat) :
  (a <= b)%nat -> b <> 0%nat ->
  0 <= ofNat a / ofNat b * 100 /\ ofNat a / ofNat b * 100 <= 100.
Proof.
  intros Hab Hb. destruct (share_bounds a b Hab Hb). split; lra.
Qed.

Lemma Math_round_bounds (x : Q) :
  0 <= x -> x <= 100 -> (0 <= Math_round x <= 100)%Z.
Proof.
  intros H0 H100. unfold Math_round. split.
  - change 0%Z with (Qfloor 0). apply Qfloor_resp_le. lra.
  - change 100%Z with (Qfloor (100 + (1 # 2))). apply Qfloor_resp_le. lra.
Qed.

Lemma rounded_bounds (x : Q) :
  0 <= x -> x <= 100 ->
  0 <= inject_Z (Math_round x) /\ inject_Z (Math_round x) <= 100.
Proof.
  intros H0 H100. destruct (Math_round_bounds x H0 H100) as [Hl Hu].
  split.
  - change 0 with (inject_Z 0). rewrite <- Zle_Qle. exact Hl.
  - change 100 with (inject_Z 100). rewrite <- Zle_Qle. exact Hu.
Qed.

Lemma Math_min_spec (a b : Q) :
  (a <= b /\ Math_min a b = a) \/ (b < a /\ Math_min a b = b).
Proof.
  unfold Math_min. destruct (Qle_bool a b) eqn:E.
  - left. split; [now apply Qle_bool_iff | reflexivity].
  - right. split; [| reflexivity].
    apply Qnot_le_lt. intros H. apply Qle_bool_iff in H. congruence.
Qed.

Lemma Math_max_spec (a b : Q) :
  (a <= b /\ Math_max a b = b) \/ (b < a /\ Math_max a b = a).
Proof.
  unfold Math_max. destruct (Qle_bool a b) eqn:E.
  - left. split; [now apply Qle_bool_iff | reflexivity].
  - right. split; [| reflexivity].
    apply Qnot_le_lt. intros H. apply Qle_bool_iff in H. congruence.
Qed.

End Arithmetic.


(* ===================================================================== *)
(** ** Counting rows of the store *)
(* ===================================================================== *)

Section Counting.
Import Store.

(** A narrower filter selects no more rows. *)
Lemma filter_length_mono {A : Type} (f g : A -> bool) (l : list A) :
  (forall x, f x = true -> g x = true) ->
  (length (List.filter f l) <= length (List.filter g l))%nat.
Proof.
  intros Hfg. induction l as [| x l IH]; simpl; [lia |].
  destruct (f x) eqn:Ef.
  - rewrite (Hfg x Ef). simpl. lia.
  - destruct (g x); simpl; lia.
Qed.

Variable db : DB.
Variable clientId : Z.

Lemma managed_le_total :
  (device_countManagedByClientId db clientId <= device_countByClientId db clientId)%nat.
Proof.
  apply filter_length_mono. intros d H. apply andb_prop in H. tauto.
Qed.

Lemma byHealth_le_total (healthStatus : string) :
  (length (device_findByHealthStatus db clientId healthStatus)
   <= device_countByClientId db clientId)%nat.
Proof.
  apply filter_length_mono. intros d H. apply andb_prop in H. tauto.
Qed.

Lemma mfa_le_users :
  (user_countMFAEnabled db clientId <= user_countByClientId db clientId)%nat.
Proof.
  apply filter_length_mono. intros u H. apply andb_prop in H. tauto.
Qed.

Lemma riskLevel_le_users (riskLevel : string) :
  (user_countByRiskLevel db clientId riskLevel <= user_countByClientId db clientId)%nat.
Proof.
  apply filter_length_mono. intros u H. apply andb_prop in H. tauto.
Qed.

Lemma slaMet_le_tickets (startDate endDate : Z) :
  (ticket_countSLAMet db clientId startDate endDate
   <= length (ticket_findByDateRange db clientId startDate endDate))%nat.
Proof.
  apply filter_length_mono. intros t H.
  apply andb_prop in H as [H Hb]. apply andb_prop in H as [Hc _].
  now rewrite Hc, Hb.
Qed.

Lemma passRate_bounds (controlType : string) :
  0 <= control_getPassRate db clientId controlType
  /\ control_getPassRate db clientId controlType <= 100.
Proof.
  unfold control_getPassRate.
  set (query := List.filter _ (controls db)).
  destruct (Nat.eqb_spec (length query) 0) as [E | E]; [lra |].
  apply percentage_bounds; [apply filter_length_le | exact E].
Qed.
End Counting.

(* ===================================================================== *)
(** ** Every component score lies between 0 and 100 *)
(* ===================================================================== *)

Section ComponentBounds.
Import JS Store Engine.
Variable host : Host.
Variable db : DB.
Variable clientId : Z.

Lemma deviceCoverage_inRange (totalDevices managedDevices : nat) :
  inRange (calculateDeviceCoverage clientId totalDevices managedDevices).
Proof.
  unfold inRange, calculateDeviceCoverage; simpl.
  set (percentage := if (0 <? totalDevices)%nat then _ else _).
  assert (Hp : 0 <= percentage).
  { subst percentage. destruct (0 <? totalDevices)%nat eqn:E; [| lra].
    apply Nat.ltb_lt in E.
    assert (0 <= ofNat managedDevices / ofNat totalDevices).
    { apply Qle_shift_div_l; [apply ofNat_pos; lia |].
      pose proof (ofNat_nonneg managedDevices). lra. }
    lra. }
  destruct (Math_min_spec percentage 100) as [[H E] | [H E]]; rewrite E; lra.
Qed.

Lemma immyCompliance_inRange : inRange (calculateImmyCompliance db clientId).
Proof.
  unfold inRange, calculateImmyCompliance.
  destruct (Nat.eqb_spec
              (control_countByStatus db clientId "pass"
               + control_countByStatus db clientId "fail"
               + control_countByStatus db clientId "unknown") 0) as [E | E];
    simpl; [lra |].
  apply rounded_bounds; apply percentage_bounds; (lia || exact E).
Qed.

Lemma patchCompliance_inRange : inRange (calculatePatchCompliance db clientId).
Proof.
  unfold inRange, calculatePatchCompliance.
  destruct (Nat.eqb_spec (device_countByClientId db clientId) 0) as [E | E];
    simpl; [lra |].
  apply rounded_bounds; apply percentage_bounds;
    (apply byHealth_le_total || exact E).
Qed.

Lemma edrHealth_inRange : inRange (calculateEDRHealth db clientId).
Proof.
  unfold inRange, calculateEDRHealth.
  destruct (Nat.eqb_spec (device_countByClientId db clientId) 0) as [E | E];
    simpl; [lra |].
  apply rounded_bounds; apply percentage_bounds;
    (apply managed_le_total || exact E).
Qed.

Lemma m365SecureScore_inRange : inRange (calculateM365SecureScore db clientId).
Proof.
  unfold inRange, calculateM365SecureScore.
  destruct (passRate_bounds db clientId "m365_secure_score") as [Hl Hu].
  destruct (Qeq_bool _ 0); simpl; [lra |].
  now apply rounded_bounds.
Qed.

Lemma identityRisk_inRange : inRange (calculateIdentityRisk db clientId).
Proof.
  unfold inRange, calculateIdentityRisk.
  destruct (Nat.eqb_spec (user_countByClientId db clientId) 0) as [E | E];
    simpl; [lra |].
  destruct (share_bounds _ _ (mfa_le_users db clientId) E) as [? ?].
  destruct (share_bounds _ _ (riskLevel_le_users db clientId "high") E) as [? ?].
  destruct (share_bounds _ _ (riskLevel_le_users db clientId "medium") E) as [? ?].
  apply rounded_bounds; lra.
Qed.

Lemma emailRisk_inRange : inRange (calculateEmailRisk db clientId).
Proof.
  unfold inRange, calculateEmailRisk; simpl.
  repeat match goal with |- context [if ?b then _ else _] => destruct b end; lra.
Qed.

Lemma endpointRisk_inRange : inRange (calculateEndpointRisk db clientId).
Proof.
  unfold inRange, calculateEndpointRisk.
  destruct (Nat.eqb_spec (device_countByClientId db clientId) 0) as [E | E];
    simpl; [lra |].
  pose proof (managed_le_total db clientId) as Hm.
  pose proof (ofNat_pos _ E) as Hpos.
  pose proof (ofNat_le _ _ Hm) as Hle.
  pose proof (ofNat_nonneg (device_countManagedByClientId db clientId)) as Hm0.
  destruct (share_bounds _ _ (byHealth_le_total db clientId "critical") E) as [? ?].
  set (total := ofNat (device_countByClientId db clientId)) in *.
  set (managed := ofNat (device_countManagedByClientId db clientId)) in *.
  assert (0 <= (total - managed) / total).
  { apply Qle_shift_div_l; [exact Hpos | lra]. }
  assert ((total - managed) / total <= 1).
  { apply Qle_shift_div_r; [exact Hpos | lra]. }
  match goal with
  | |- context [Math_min (ofNat ?n * 5) 30] =>
      pose proof (ofNat_nonneg n);
      destruct (Math_min_spec (ofNat n * 5) 30) as [[Hc Em] | [Hc Em]]; rewrite Em
  end; apply rounded_bounds; lra.
Qed.

Lemma businessModifier_inRange : inRange (calculateBusinessModifier clientId).
Proof. unfold inRange; simpl; lra. Qed.
End ComponentBounds.


Section ExperienceBounds.
Import JS Store Engine.
Variable host : Host.
Variable db : DB.
Variable clientId : Z.

Lemma ticketsPerUserTrend_inRange :
  inRange (calculateTicketsPerUserTrend host db clientId).
Proof.
  unfold inRange, calculateTicketsPerUserTrend.
  destruct (user_countByClientId db clientId =? 0)%nat; simpl; [lra |].
  repeat match goal with
         | |- context [if ?b then _ else _] => destruct b
         end; lra.
Qed.

Lemma repeatCategories_le_total (categoryCount : gmap string Tally) :
  (length (List.filter isRepeat (map snd (map_to_list categoryCount)))
   <= size categoryCount)%nat.
Proof.
  etransitivity; [apply filter_length_le |].
  rewrite List.length_map, length_map_to_list. lia.
Qed.

Lemma repeatIssueRate_inRange : inRange (calculateRepeatIssueRate host db clientId).
Proof.
  unfold inRange, calculateRepeatIssueRate.
  destruct (length _ =? 0)%nat; simpl; [lra |].
  set (categoryCount := fold_left countCategory _ _).
  pose proof (repeatCategories_le_total categoryCount) as Hle.
  set (repeatRate := if (0 <? size categoryCount)%nat then _ else _).
  assert (Hr : 0 <= repeatRate /\ repeatRate <= 100).
  { subst repeatRate. destruct (Nat.ltb_spec 0 (size categoryCount)); [| lra].
    apply percentage_bounds; [exact Hle | lia]. }
  destruct (Math_max_spec 0 (100 - repeatRate)) as [[Hc Em] | [Hc Em]]; rewrite Em;
    apply rounded_bounds; lra.
Qed.

Lemma slaPerformance_inRange : inRange (calculateSLAPerformance host db clientId).
Proof.
  unfold inRange, calculateSLAPerformance.
  destruct (Nat.eqb_spec (length (ticket_findByDateRange db clientId
                                    (quarterStart host) (quarterEnd host))) 0)
    as [E | E]; simpl; [lra |].
  apply rounded_bounds; apply percentage_bounds;
    (apply slaMet_le_tickets || exact E).
Qed.

Lemma reopenRate_inRange : inRange (calculateReopenRate host db clientId).
Proof.
  unfold inRange, calculateReopenRate.
  destruct (Nat.eqb_spec (length (ticket_findByDateRange db clientId
                                    (quarterStart host) (quarterEnd host))) 0)
    as [E | E]; simpl; [lra |].
  set (reopened := ofNat (ticket_countReopened db clientId _ _)).
  set (total := ofNat (length _)).
  assert (0 <= reopened / total).
  { apply Qle_shift_div_l; [apply ofNat_pos; exact E |].
    pose proof (ofNat_nonneg (ticket_countReopened db clientId
                                (quarterStart host) (quarterEnd host))).
    subst reopened. lra. }
  destruct (Math_max_spec 0 (100 - reopened / total * 100 * 2))
    as [[Hc Em] | [Hc Em]]; rewrite Em; apply rounded_bounds; lra.
Qed.

Lemma afterHoursIncidents_inRange :
  inRange (calculateAfterHoursIncidents host db clientId).
Proof.
  unfold inRange, calculateAfterHoursIncidents.
  destruct (Nat.eqb_spec (length (ticket_findByDateRange db clientId
                                    (quarterStart host) (quarterEnd host))) 0)
    as [E | E]; simpl; [lra |].
  set (tickets := ticket_findByDateRange db clientId _ _) in *.
  destruct (share_bounds (length (List.filter (isAfterHours host) tickets))
                         (length tickets) (filter_length_le _ _) E) as [? ?].
  match goal with
  | |- context [Math_max 0 ?x] =>
      destruct (Math_max_spec 0 x) as [[Hc Em] | [Hc Em]]; rewrite Em
  end; apply rounded_bounds; lra.
Qed.
End ExperienceBounds.


(* ===================================================================== *)
(** ** Standards score *)
(* ===================================================================== *)

Section StandardsFacts.
Import JS Store Engine.
Variable host : Host.
Variable db : DB.
Variable clientId : Z.

(** With at least one device the result is the five-component one. *)
Lemma standards_scored :
  device_countByClientId db clientId <> 0%nat ->
  calculateStandardsScore host db clientId =
    let deviceCoverage :=
      calculateDeviceCoverage clientId (device_countByClientId db clientId)
                              (device_countManagedByClientId db clientId) in
    let immyCompliance := calculateImmyCompliance db clientId in
    let patchCompliance := calculatePatchCompliance db clientId in
    let edrHealth := calculateEDRHealth db clientId in
    let m365SecureScore := calculateM365SecureScore db clientId in
    {| ScoreResult.score :=
         Some (Math_round
                 (0 + Component.score deviceCoverage * 0.20
                  + Component.score immyCompliance * 0.30
                  + Component.score patchCompliance * 0.20
                  + Component.score edrHealth * 0.15
                  + Component.score m365SecureScore * 0.15));
       ScoreResult.error := None;
       ScoreResult.breakdown :=
         [ ("device_coverage", entry deviceCoverage "20%");
           ("immy_compliance", entry immyCompliance "30%");
           ("patch_compliance", entry patchCompliance "20%");
           ("edr_health", entry edrHealth "15%");
           ("m365_secure_score", entry m365SecureScore "15%") ];
       ScoreResult.computed_at := now host |}.
Proof.
  intros H. unfold calculateStandardsScore.
  destruct (Nat.eqb_spec (device_countByClientId db clientId) 0) as [E | _];
    [contradiction | reflexivity].
Qed.

Lemma secureScore_zero_controls :
  secureScoreControls db clientId = 0%nat ->
  control_getPassRate db clientId "m365_secure_score" = 0.
Proof.
  unfold secureScoreControls, control_findByType, control_getPassRate.
  intros H. rewrite H. reflexivity.
Qed.
End StandardsFacts.

(** C1.  A client with no device gets exactly the insufficient-data result
    (null score, the error text, an empty breakdown), whatever else the
    store holds for it.  A client with at least one device always gets a
    numeric score; with no control at all its baseline-compliance component
    scores 0, and with no secure-score control its secure-score component
    scores 0. *)
Theorem C1_no_devices_blocks_other_zero_denominators_score_zero
    (host : Host) (db : Store.DB) (clientId : Z) :
  (Store.device_countByClientId db clientId = 0%nat ->
   Engine.calculateStandardsScore host db clientId = insufficientData host)
  /\
  (Store.device_countByClientId db clientId <> 0%nat ->
   let r := Engine.calculateStandardsScore host db clientId in
   (exists s, ScoreResult.score r = Some s)
   /\ ScoreResult.error r = None
   /\ (totalControls db clientId = 0%nat -> scoreAt r "immy_compliance" 0)
   /\ (secureScoreControls db clientId = 0%nat -> scoreAt r "m365_secure_score" 0)).
Proof.
  split.
  - intros H. unfold Engine.calculateStandardsScore. rewrite H. reflexivity.
  - intros H r. subst r. rewrite (standards_scored host db clientId H).
    split; [eexists; reflexivity |].
    split; [reflexivity |].
    split.
    + intros Hc. unfold scoreAt, breakdownAt; simpl.
      unfold Engine.calculateImmyCompliance.
      unfold totalControls in Hc. rewrite Hc. reflexivity.
    + intros Hc. unfold scoreAt, breakdownAt; simpl.
      unfold Engine.calculateM365SecureScore.
      rewrite (secureScore_zero_controls db clientId Hc). reflexivity.
Qed.

Lemma C1_witness :
  Engine.calculateStandardsScore (exampleHost 45) Scenario.noDevices 1
    = insufficientData (exampleHost 45)
  /\ (exists s, ScoreResult.score
                  (Engine.calculateStandardsScore (exampleHost 45) Scenario.oneDevice 1)
                = Some s)
  /\ scoreAt (Engine.calculateStandardsScore (exampleHost 45) Scenario.oneDevice 1)
             "immy_compliance" 0
  /\ scoreAt (Engine.calculateStandardsScore (exampleHost 45) Scenario.oneDevice 1)
             "m365_secure_score" 0.
Proof.
  split.
  - apply (C1_no_devices_blocks_other_zero_denominators_score_zero
             (exampleHost 45) Scenario.noDevices 1).
    reflexivity.
  - destruct (C1_no_devices_blocks_other_zero_denominators_score_zero
                (exampleHost 45) Scenario.oneDevice 1) as [_ H].
    destruct H as (Hs & _ & Hi & Hm); [discriminate |].
    split; [exact Hs |].
    split; [apply Hi; reflexivity | apply Hm; reflexivity].
Defined.

(** C8 as the code has it.  EDR health divides the managed-device count by
    the device count, like device coverage: with 45 of 50 devices managed it
    is 90, and the total is round(18 + 24 + 16.8 + 13.5 + 10.8) = 83. *)
Theorem C8_scenario_scores_with_edr_from_managed_count
    (host : Host) (db : Store.DB) (clientId : Z) :
  Store.device_countByClientId db clientId = 50%nat ->
  Store.device_countManagedByClientId db clientId = 45%nat ->
  length (Store.device_findByHealthStatus db clientId "healthy") = 42%nat ->
  Store.control_countByStatus db clientId "pass" = 40%nat ->
  totalControls db clientId = 50%nat ->
  Store.control_getPassRate db clientId "m365_secure_score" == 72 ->
  let r := Engine.calculateStandardsScore host db clientId in
  scoreAt r "device_coverage" 90
  /\ scoreAt r "immy_compliance" 80
  /\ scoreAt r "patch_compliance" 84
  /\ scoreAt r "edr_health" 90
  /\ scoreAt r "m365_secure_score" 72
  /\ ScoreResult.score r = Some 83%Z.
Proof.
  intros Hd Hm Hh Hp Ht Hs r. subst r.
  rewrite standards_scored by (rewrite Hd; discriminate).
  assert (Em : Engine.calculateM365SecureScore db clientId
               = Engine.plain 72
                   [ ("secure_score_percentage", Engine.numZ 72);
                     ("description", JS.Str "Microsoft Secure Score: 72%") ]).
  { unfold Engine.calculateM365SecureScore.
    assert (Er : JS.Math_round (Store.control_getPassRate db clientId "m365_secure_score")
                 = 72%Z).
    { unfold JS.Math_round. rewrite (Qfloor_comp _ (72 + (1 # 2))); [reflexivity |].
      rewrite Hs. reflexivity. }
    rewrite Er.
    destruct (Qeq_bool _ 0) eqn:E; [| reflexivity].
    apply Qeq_bool_eq in E. rewrite Hs in E. discriminate E. }
  unfold totalControls in Ht.
  unfold scoreAt, breakdownAt; cbn [ScoreResult.breakdown ScoreResult.score List.find
    fst snd String.eqb option_map Entry.component Engine.entry].
  rewrite Em.
  unfold Engine.calculateImmyCompliance, Engine.calculatePatchCompliance,
    Engine.calculateEDRHealth, Engine.calculateDeviceCoverage.
  rewrite Ht, Hd, Hm, Hh, Hp.
  repeat split; vm_compute; try reflexivity.
Qed.


Lemma C8_witness :
  let r := Engine.calculateStandardsScore (exampleHost 45) Scenario.fifty 1 in
  scoreAt r "device_coverage" 90
  /\ scoreAt r "immy_compliance" 80
  /\ scoreAt r "patch_compliance" 84
  /\ scoreAt r "edr_health" 90
  /\ scoreAt r "m365_secure_score" 72
  /\ ScoreResult.score r = Some 83%Z.
Proof.
  apply (C8_scenario_scores_with_edr_from_managed_count (exampleHost 45) Scenario.fifty 1);
    reflexivity.
Defined.

(** C8, refuted as stated: on a store with 50 devices (45 managed, 42
    healthy), 40 of 50 controls passing and a secure-score pass rate of 72,
    EDR health is 90, not 96, and the total is 83, not 84. *)
Lemma C8_counterexample :
  let db := Scenario.fifty in
  let r := Engine.calculateStandardsScore (exampleHost 45) db 1 in
  Store.device_countByClientId db 1 = 50%nat
  /\ Store.device_countManagedByClientId db 1 = 45%nat
  /\ length (Store.device_findByHealthStatus db 1 "healthy") = 42%nat
  /\ Store.control_countByStatus db 1 "pass" = 40%nat
  /\ totalControls db 1 = 50%nat
  /\ Store.control_getPassRate db 1 "m365_secure_score" == 72
  /\ scoreAt r "edr_health" 90
  /\ ~ scoreAt r "edr_health" 96
  /\ ScoreResult.score r = Some 83%Z
  /\ ScoreResult.score r <> Some 84%Z.
Proof.
  repeat split; try reflexivity; try discriminate.
Qed.

(** The EDR component never departs from device coverage: both are the
    managed share of the devices, EDR health rounded. *)
Lemma edr_is_rounded_device_coverage (db : Store.DB) (clientId : Z) :
  Store.device_countByClientId db clientId <> 0%nat ->
  Component.score (Engine.calculateEDRHealth db clientId)
  == inject_Z (JS.Math_round
                 (Component.score
                    (Engine.calculateDeviceCoverage clientId
                       (Store.device_countByClientId db clientId)
                       (Store.device_countManagedByClientId db clientId)))).
Proof.
  intros H. unfold Engine.calculateEDRHealth, Engine.calculateDeviceCoverage.
  destruct (Nat.eqb_spec (Store.device_countByClientId db clientId) 0) as [E | _];
    [contradiction |].
  destruct (Nat.ltb_spec 0 (Store.device_countByClientId db clientId)) as [_ | E]; [| lia].
  simpl.
  destruct (percentage_bounds _ _ (managed_le_total db clientId) H) as [_ Hu].
  destruct (Math_min_spec
              (JS.ofNat (Store.device_countManagedByClientId db clientId)
               / JS.ofNat (Store.device_countByClientId db clientId) * 100) 100)
    as [[_ Em] | [Hc _]]; [rewrite Em; reflexivity | lra].
Qed.

(* ===================================================================== *)
(** ** Totals are rounded weighted sums *)
(* ===================================================================== *)




(* ===================================================================== *)
(** ** Risk score: the neutral midpoint *)
(* ===================================================================== *)

(** C4.  Without users the identity-risk component is score 50, level
    Medium, with a description saying that no user data was available;
    without devices the endpoint-risk component is score 50, level Medium,
    likewise described; and [calculateRiskScore] returns a numeric total in
    every case, with these components in its breakdown. *)
Theorem C4_risk_neutral_midpoint_on_missing_data
    (host : Host) (db : Store.DB) (clientId : Z) :
  (Store.user_countByClientId db clientId = 0%nat ->
   Engine.calculateIdentityRisk db clientId
   = {| Component.score := 50;
        Component.risk_level := Some "Medium";
        Component.evidence :=
          [ ("description",
             JS.Str "No user data available for identity risk assessment") ] |})
  /\
  (Store.device_countByClientId db clientId = 0%nat ->
   Engine.calculateEndpointRisk db clientId
   = {| Component.score := 50;
        Component.risk_level := Some "Medium";
        Component.evidence :=
          [ ("description",
             JS.Str "No device data available for endpoint risk assessment") ] |})
  /\
  (let r := Engine.calculateRiskScore host db clientId in
   (exists s, ScoreResult.score r = Some s)
   /\ ScoreResult.error r = None
   /\ breakdownAt r "identity_risk" = Some (Engine.calculateIdentityRisk db clientId)
   /\ breakdownAt r "endpoint_risk" = Some (Engine.calculateEndpointRisk db clientId)).
Proof.
  split; [| split].
  - intros H. unfold Engine.calculateIdentityRisk. rewrite H. reflexivity.
  - intros H. unfold Engine.calculateEndpointRisk. rewrite H. reflexivity.
  - cbv zeta. split; [eexists; reflexivity |]. repeat split.
Qed.

Lemma C4_witness :
  let db := Scenario.oneDevice in
  let nobody := {| Store.devices := []; Store.controls := []; Store.users := [];
                   Store.tickets := []; Store.risks := [] |} in
  Component.score (Engine.calculateIdentityRisk db 1) = 50
  /\ Component.risk_level (Engine.calculateEndpointRisk nobody 1) = Some "Medium"
  /\ ScoreResult.score (Engine.calculateRiskScore (exampleHost 45) nobody 1) = Some 38%Z.
Proof.
  cbv zeta. split; [| split].
  - destruct (C4_risk_neutral_midpoint_on_missing_data (exampleHost 45)
                Scenario.oneDevice 1) as [H _].
    rewrite H; reflexivity.
  - destruct (C4_risk_neutral_midpoint_on_missing_data (exampleHost 45)
                {| Store.devices := []; Store.controls := []; Store.users := [];
                   Store.tickets := []; Store.risks := [] |} 1) as (_ & H & _).
    rewrite H; reflexivity.
  - reflexivity.
Defined.

(* ===================================================================== *)
(** ** All scores lie between 0 and 100 *)
(* ===================================================================== *)

(** C9.  For every store, client and host, each calculator's total, when
    it is not null, lies in [0, 100], and so does every component score of
    its breakdown. *)
Theorem C9_scores_and_components_within_0_100
    (host : Host) (db : Store.DB) (clientId : Z) :
  scoresInRange (Engine.calculateStandardsScore host db clientId)
  /\ scoresInRange (Engine.calculateRiskScore host db clientId)
  /\ scoresInRange (Engine.calculateExperienceScore host db clientId).
Proof.
  split; [| split].
  - destruct (Nat.eq_dec (Store.device_countByClientId db clientId) 0%nat) as [E | E].
    + unfold Engine.calculateStandardsScore. rewrite E. simpl.
      split; [discriminate | constructor].
    + rewrite (standards_scored host db clientId E). cbv zeta.
      pose proof (deviceCoverage_inRange clientId
                    (Store.device_countByClientId db clientId)
                    (Store.device_countManagedByClientId db clientId)) as [? ?].
      pose proof (immyCompliance_inRange db clientId) as [? ?].
      pose proof (patchCompliance_inRange db clientId) as [? ?].
      pose proof (edrHealth_inRange db clientId) as [? ?].
      pose proof (m365SecureScore_inRange db clientId) as [? ?].
      split.
      * intros s Hs. cbv [ScoreResult.score] in Hs. apply (inj Some) in Hs. subst s.
        apply Math_round_bounds; lra.
      * cbv [ScoreResult.breakdown].
        repeat (constructor; [split; assumption |]). constructor.
  - pose proof (identityRisk_inRange db clientId) as [? ?].
    pose proof (emailRisk_inRange db clientId) as [? ?].
    pose proof (endpointRisk_inRange db clientId) as [? ?].
    pose proof (businessModifier_inRange clientId) as [? ?].
    unfold Engine.calculateRiskScore. split.
    + intros s Hs. cbv [ScoreResult.score] in Hs. apply (inj Some) in Hs. subst s.
      unfold Engine.weightedTotal; cbn [fold_left fst snd].
      apply Math_round_bounds; lra.
    + cbv [ScoreResult.breakdown].
      repeat (constructor; [split; assumption |]). constructor.
  - pose proof (ticketsPerUserTrend_inRange host db clientId) as [? ?].
    pose proof (repeatIssueRate_inRange host db clientId) as [? ?].
    pose proof (slaPerformance_inRange host db clientId) as [? ?].
    pose proof (reopenRate_inRange host db clientId) as [? ?].
    pose proof (afterHoursIncidents_inRange host db clientId) as [? ?].
    unfold Engine.calculateExperienceScore. split.
    + intros s Hs. cbv [ScoreResult.score] in Hs. apply (inj Some) in Hs. subst s.
      unfold Engine.weightedTotal; cbn [fold_left fst snd].
      apply Math_round_bounds; lra.
    + cbv [ScoreResult.breakdown].
      repeat (constructor; [split; assumption |]). constructor.
Qed.

Lemma C9_witness :
  (0 <= 83 <= 100)%Z
  /\ Forall (fun kv => inRange (Entry.component (snd kv)))
            (ScoreResult.breakdown
               (Engine.calculateStandardsScore (exampleHost 45) Scenario.fifty 1)).
Proof.
  destruct (C9_scores_and_components_within_0_100 (exampleHost 45) Scenario.fifty 1)
    as [[Hs Hb] _].
  split; [apply Hs; reflexivity | exact Hb].
Defined.


(* ===================================================================== *)
(** ** Experience score: the tickets-per-user trend *)
(* ===================================================================== *)

Section TrendFacts.
Import JS Store Engine.
Variable host : Host.
Variable db : DB.
Variable clientId : Z.

(** With users and tickets in the previous quarter, the user count
    cancels: the change is that of the ticket counts. *)
Lemma ticketsPerUserChange_counts :
  user_countByClientId db clientId <> 0%nat ->
  previousTickets host db clientId <> 0%nat ->
  ticketsPerUserChange host db clientId
  == (ofNat (currentTickets host db clientId) - ofNat (previousTickets host db clientId))
     / ofNat (previousTickets host db clientId) * 100.
Proof.
  intros Hu Hp. unfold ticketsPerUserChange.
  pose proof (ofNat_pos _ Hu). pose proof (ofNat_pos _ Hp).
  field. split; lra.
Qed.


End TrendFacts.






(* ===================================================================== *)
(** ** Adapters: health-status defaults *)
(* ===================================================================== *)

Section ImmyHealth.
Import JS Adapters.

Lemma present_orElse (a b : option string) :
  present (orElse a b) = present a || present b.
Proof. unfold orElse. destruct (present a) eqn:E; simpl; [exact E | reflexivity]. Qed.

Lemma mapImmyHealthStatus_absent (immyStatus : option string) :
  present immyStatus = false -> Immy.mapImmyHealthStatus immyStatus = "unknown".
Proof.
  destruct immyStatus as [s |]; simpl; [| reflexivity].
  destruct (String.eqb s ""); [reflexivity | discriminate].
Qed.

Lemma mapImmyHealthStatus_present (immyStatus : option string) :
  present immyStatus = true -> Immy.mapImmyHealthStatus immyStatus <> "unknown".
Proof.
  destruct immyStatus as [s |]; simpl; [| discriminate].
  destruct (String.eqb s ""); [discriminate | intros _].
  repeat match goal with |- context [if ?b then _ else _] => destruct b end;
    discriminate.
Qed.

Lemma mapImmyHealthStatus_unrecognized (s : string) :
  s <> "" -> unrecognized s -> Immy.mapImmyHealthStatus (Some s) = "healthy".
Proof.
  intros Hs Hu. unfold Immy.mapImmyHealthStatus.
  destruct (String.eqb_spec s "") as [E | _]; [contradiction |].
  unfold unrecognized, healthKeywords in Hu.
  repeat match goal with
         | H : Forall _ (_ :: _) |- _ =>
             let Hx := fresh "Hx" in
             apply Forall_cons in H as [Hx H]; rewrite Hx
         end.
  reflexivity.
Qed.
End ImmyHealth.

(** C5 as the code has it.  The Immy adapter normalizes a computer with
    neither [status] nor [health] to health_status [unknown], and that is the
    only case giving [unknown]; a non-empty status containing none of the
    mapping's keywords falls through to the default [healthy].  The
    ConnectWise adapter sets [healthy] on every device. *)
Theorem C5_health_status_defaults
    (computer : Adapters.Immy.Computer) (config : Adapters.ConnectWise.Configuration) :
  let given := Adapters.orElse (Adapters.Immy.status computer)
                               (Adapters.Immy.health computer) in
  let normalized := Adapters.nd_health_status (Adapters.Immy.normalizeDevice computer) in
  (Adapters.present given = false -> normalized = "unknown")
  /\ (Adapters.present given = true -> normalized <> "unknown")
  /\ (forall s, given = Some s -> s <> "" -> unrecognized s -> normalized = "healthy")
  /\ Adapters.nd_health_status (Adapters.ConnectWise.normalizeDevice config) = "healthy".
Proof.
  cbv zeta. cbn [Adapters.Immy.normalizeDevice Adapters.nd_health_status].
  split; [apply mapImmyHealthStatus_absent |].
  split; [apply mapImmyHealthStatus_present |].
  split; [| reflexivity].
  intros s -> Hs Hu. now apply mapImmyHealthStatus_unrecognized.
Qed.

Lemma C5_witness :
  Adapters.nd_health_status (Adapters.Immy.normalizeDevice Sample.silent) = "unknown"
  /\ Adapters.nd_health_status (Adapters.Immy.normalizeDevice Sample.offline) <> "unknown"
  /\ Adapters.nd_health_status (Adapters.Immy.normalizeDevice Sample.offline) = "healthy".
Proof.
  split; [| split].
  - apply (C5_health_status_defaults Sample.silent Sample.firewall). reflexivity.
  - apply (C5_health_status_defaults Sample.offline Sample.firewall). reflexivity.
  - destruct (C5_health_status_defaults Sample.offline Sample.firewall)
      as (_ & _ & H & _).
    apply (H "offline"); [reflexivity | discriminate |].
    repeat constructor.
Defined.

(** C5, refuted as stated: the Immy mapping sends the unrecognized status
    [offline] to [healthy], and the ConnectWise adapter, whose vendor has no
    health telemetry, normalizes a device to [healthy], not [unknown]. *)
Lemma C5_counterexample :
  unrecognized "offline"
  /\ Adapters.Immy.mapImmyHealthStatus (Some "offline") = "healthy"
  /\ Adapters.nd_health_status (Adapters.Immy.normalizeDevice Sample.offline) = "healthy"
  /\ Adapters.nd_health_status (Adapters.ConnectWise.normalizeDevice Sample.firewall)
     = "healthy".
Proof.
  split; [repeat constructor | repeat split].
Qed.

(* ===================================================================== *)
(** ** Adapters: credentials are validated before any request *)
(* ===================================================================== *)

Section Validation.
Import JS Adapters.


Lemma validateCredentials_complete (fields : gmap string JS.Val) (required : list string) :
  Forall (fun f => truthy (field fields f) = true) required ->
  validateCredentials (Fields fields) required = Eff.ret tt.
Proof.
  intros H. unfold validateCredentials.
  replace (List.filter _ required) with (@nil string); [reflexivity |].
  symmetry. induction H as [| f l Hf _ IH]; simpl; [reflexivity |].
  rewrite Hf. simpl. exact IH.
Qed.

Lemma validateCredentials_notAnObject (v : JS.Val) (required : list string) :
  validateCredentials (NotAnObject v) required
  = Eff.throw (Err.AdapterError "Invalid credentials" "Credentials must be an object" 400).
Proof. reflexivity. Qed.
End Validation.





(* ===================================================================== *)
(** ** The citation gate *)
(* ===================================================================== *)

Section Effects.
Lemma outcome_bind {A B : Type} (m : Eff.M A) (k : A -> Eff.M B) :
  Eff.outcome (Eff.bind m k)
  = match Eff.outcome m with
    | inl e => inl e
    | inr a => Eff.outcome (k a)
    end.
Proof.
  destruct m as [tr [e | a]]; simpl; [reflexivity |].
  destruct (k a); reflexivity.
Qed.


Lemma outcome_catch {A : Type} (m : Eff.M A) (h : Err.t -> Eff.M A) :
  Eff.outcome (Eff.catch m h)
  = match Eff.outcome m with
    | inl e => Eff.outcome (h e)
    | inr a => inr a
    end.
Proof.
  destruct m as [tr [e | a]]; simpl; [| reflexivity].
  destruct (h e); reflexivity.
Qed.

(** A loop whose body never throws runs to its end. *)
Lemma forEach_passes {A : Type} (f : A -> Eff.M unit) (l : list A) :
  Forall (fun x => passes (f x)) l -> passes (Eff.forEach f l).
Proof.
  unfold passes. induction 1 as [| x l Hx _ IH]; simpl; [reflexivity |].
  rewrite outcome_bind, Hx. exact IH.
Qed.

End Effects.

Section Gate.
Import Narrative.
Variable input : Input.

(** Checking one citation never throws; it can only log warnings. *)
Lemma checkCitation_passes (rec : Recommendation) (citation : string) :
  passes (checkCitation input rec citation).
Proof.
  unfold passes, checkCitation.
  change (Eff.outcome (Eff.bind ?m ?k)) with (Eff.outcome (Eff.bind m k)).
  destruct (matchTicket citation) as [ticketId |];
    destruct (matchDevice citation) as [deviceName |];
    try destruct (ticketExists input ticketId);
    try destruct (deviceExists input deviceName); reflexivity.
Qed.


(** A recommendation is rejected exactly when it lacks evidence. *)
Lemma checkRecommendation_with_evidence (rec : Recommendation) :
  ~ lacksEvidence rec -> passes (checkRecommendation input rec).
Proof.
  intros H. unfold checkRecommendation.
  destruct (evidence rec) as [[| c cs] |] eqn:E.
  - exfalso. apply H. right. exact E.
  - apply forEach_passes. apply Forall_forall. intros x _. apply checkCitation_passes.
  - exfalso. apply H. left. exact E.
Qed.

Lemma checkRecommendation_without_evidence (rec : Recommendation) :
  lacksEvidence rec ->
  raises (checkRecommendation input rec) "HallucinationDetectedError".
Proof.
  intros [H | H]; unfold checkRecommendation; rewrite H;
    eexists; split; reflexivity.
Qed.

Lemma lacksEvidence_dec (rec : Recommendation) :
  {lacksEvidence rec} + {~ lacksEvidence rec}.
Proof.
  unfold lacksEvidence. destruct (evidence rec) as [[| c cs] |].
  - left. right. reflexivity.
  - right. intros [H | H]; discriminate H.
  - left. left. reflexivity.
Defined.

Lemma validateCitations_throws_iff (recommendations : list Recommendation) :
  raises (validateCitations recommendations input) "HallucinationDetectedError"
  <-> Exists lacksEvidence recommendations.
Proof.
  unfold validateCitations.
  induction recommendations as [| rec recs IH]; simpl.
  - split.
    + intros (e & He & _). discriminate He.
    + intros H. inversion H.
  - destruct (lacksEvidence_dec rec) as [Hl | Hn].
    + split; [intros _; now constructor | intros _].
      destruct (checkRecommendation_without_evidence rec Hl) as (e & He & Hname).
      exists e. split; [| exact Hname].
      rewrite outcome_bind, He. reflexivity.
    + pose proof (checkRecommendation_with_evidence rec Hn) as Hp.
      unfold raises in *. rewrite outcome_bind, Hp.
      rewrite IH. split.
      * intros H. now apply Exists_cons_tl.
      * intros H. inversion H; [contradiction | assumption].
Qed.


End Gate.



(** The two loops on concrete data: found citations log nothing, missing
    ones log one warning each, an empty evidence list aborts the run. *)
Example validateCitations_grounded :
  Narrative.validateCitations [Cited.grounded] Cited.input = ([], inr tt).
Proof. reflexivity. Qed.

Example validateCitations_unfounded :
  Narrative.validateCitations [Cited.unfounded] Cited.input
  = ([ Eff.Warning ("Device " +:+ Narrative.dquote +:+ "FW-MAIN-99" +:+ Narrative.dquote
                    +:+ " cited but not found in data");
       Eff.Warning "Ticket #999 cited but not found in data" ],
     inr tt).
Proof. reflexivity. Qed.

Example validateCitations_bare :
  Narrative.validateCitations [Cited.unfounded; Cited.bare; Cited.grounded] Cited.input
  = ([ Eff.Warning ("Device " +:+ Narrative.dquote +:+ "FW-MAIN-99" +:+ Narrative.dquote
                    +:+ " cited but not found in data");
       Eff.Warning "Ticket #999 cited but not found in data" ],
     inl (Err.HallucinationDetectedError
            ("Recommendation " +:+ Narrative.dquote +:+ "Enable MFA" +:+ Narrative.dquote
             +:+ " has no evidence citations"))).
Proof. reflexivity. Qed.


(* ===================================================================== *)
(** ** generateNarrative wraps every failure *)
(* ===================================================================== *)

Section Wrapping.
Import Narrative.
Variable maxRetries : nat.
Variable completions : Job -> nat -> Err.t + string.
Variable parseRecommendations : string -> Err.t + list Recommendation.
Variable parseTopics : string -> Err.t + list string.
Variable input : Input.

(** Whatever is thrown inside the [try] leaves as an OpenAIError. *)
Lemma generateNarrative_error (e : Err.t) :
  Eff.outcome (generateNarrative maxRetries completions parseRecommendations
                                 parseTopics input) = inl e ->
  exists cause, e = Err.OpenAIError "Failed to generate narrative" (Err.message cause).
Proof.
  unfold generateNarrative. rewrite outcome_catch.
  destruct (Eff.outcome _) as [cause | n]; [| discriminate].
  intros H. injection H as <-. exists cause. reflexivity.
Qed.

Lemma generateNarrative_validation_failure
      (trends summary : string) (recs : list Recommendation) (points : list string)
      (h : Err.t) :
  Eff.outcome (fourJobs maxRetries completions parseRecommendations parseTopics)
  = inr (trends, (summary, (recs, points))) ->
  Eff.outcome (validateCitations recs input) = inl h ->
  Eff.outcome (generateNarrative maxRetries completions parseRecommendations
                                 parseTopics input)
  = inl (Err.OpenAIError "Failed to generate narrative" (Err.message h)).
Proof.
  intros Hjobs Hval. unfold generateNarrative. rewrite outcome_catch.
  unfold mbind, eff_bind. rewrite outcome_bind.
  unfold fourJobs in Hjobs. rewrite Hjobs.
  rewrite outcome_bind, Hval. reflexivity.
Qed.
End Wrapping.

(** C10.  When the four generation jobs succeed and the citation check
    finds a recommendation without evidence, the check raises a
    HallucinationDetectedError and [generateNarrative] rejects with an
    OpenAIError whose message is the fixed text, the original message kept
    only in its details.  Every error leaving [generateNarrative] is such an
    OpenAIError: a HallucinationDetectedError never reaches the caller. *)
Theorem C10_hallucination_leaves_as_OpenAIError
    (maxRetries : nat) (completions : Narrative.Job -> nat -> Err.t + string)
    (parseRecommendations : string -> Err.t + list Narrative.Recommendation)
    (parseTopics : string -> Err.t + list string) (input : Narrative.Input) :
  let run := Narrative.generateNarrative maxRetries completions parseRecommendations
                                         parseTopics input in
  (forall trends summary recs points,
     Eff.outcome (fourJobs maxRetries completions parseRecommendations parseTopics)
     = inr (trends, (summary, (recs, points))) ->
     Exists lacksEvidence recs ->
     exists h,
       Eff.outcome (Narrative.validateCitations recs input) = inl h
       /\ Err.name h = "HallucinationDetectedError"
       /\ Eff.outcome run
          = inl (Err.OpenAIError "Failed to generate narrative" (Err.message h)))
  /\ (forall e, Eff.outcome run = inl e ->
                Err.name e = "OpenAIError"
                /\ Err.message e = "Failed to generate narrative")
  /\ ~ raises run "HallucinationDetectedError".
Proof.
  cbv zeta. split; [| split].
  - intros trends summary recs points Hjobs Hlack.
    apply validateCitations_throws_iff with (input := input) in Hlack.
    destruct Hlack as (h & Hh & Hname).
    exists h. split; [exact Hh |]. split; [exact Hname |].
    eapply generateNarrative_validation_failure; eassumption.
  - intros e He. apply generateNarrative_error in He as [cause ->].
    split; reflexivity.
  - intros (e & He & Hname).
    apply generateNarrative_error in He as [cause ->].
    discriminate Hname.
Qed.

Lemma C10_witness :
  exists h,
    Err.name h = "HallucinationDetectedError"
    /\ Eff.outcome
         (Narrative.generateNarrative 3 Generated.completions
            (Generated.parseAs [Cited.grounded; Cited.bare]) Generated.parseTopics
            Cited.input)
       = inl (Err.OpenAIError "Failed to generate narrative" (Err.message h)).
Proof.
  destruct (C10_hallucination_leaves_as_OpenAIError 3 Generated.completions
              (Generated.parseAs [Cited.grounded; Cited.bare]) Generated.parseTopics
              Cited.input) as [H _].
  destruct (H "generated text" "generated text" [Cited.grounded; Cited.bare]
              ["Topic 1: Security roadmap"]) as (h & _ & Hname & Hrun).
  - reflexivity.
  - apply Exists_cons_tl. apply Exists_cons_hd. right. reflexivity.
  - exists h. split; [exact Hname | exact Hrun].
Defined.

(** With grounded recommendations the narrative is returned. *)
Example generateNarrative_grounded :
  Eff.outcome
    (Narrative.generateNarrative 3 Generated.completions
       (Generated.parseAs [Cited.grounded]) Generated.parseTopics Cited.input)
  = inr {| Narrative.trends := "generated text";
           Narrative.executive_summary := "generated text";
           Narrative.recommendations := [Cited.grounded];
           Narrative.discussion_points := ["Topic 1: Security roadmap"] |}.
Proof. reflexivity. Qed.


(** With complete credentials the Immy adapter does reach the network:
    five requests against vendors that are down, and the vendor failure
    comes back as an AdapterError of status 500. *)
Example immy_sync_with_complete_credentials :
  Adapters.adapterSync Sample.vendors Adapters.sync_immy
    (Adapters.Fields (<["baseUrl" := JS.Str "https://immy.example"]> Sample.keyOnly))
  = ([ Eff.Request "/computers"; Eff.Request "/devices"; Eff.Request "/baselines";
       Eff.Request "/compliance/reports"; Eff.Request "/drift-reports" ],
     inl (Err.AdapterError "Immy.Bot API error" "connect ECONNREFUSED" 500)).
Proof. reflexivity. Qed.

(* ===================================================================== *)
(** ** Cross-check in IEEE 754 double precision *)
(* ===================================================================== *)

(** The inputs of the refutations above, evaluated with binary64
    arithmetic as a JavaScript engine does: the trend percentages -20 and
    -10 are computed exactly and are not below their thresholds, and the
    Standards total of the 50-device scenario rounds to 83. *)
Example binary64_trend_minus_twenty :
  Binary64.trendPercentage 8 10 1 = (-20)%float
  /\ Binary64.trendScore (Binary64.trendPercentage 8 10 1) = 75%Z.
Proof. split; vm_compute; reflexivity. Qed.

Example binary64_trend_minus_ten :
  Binary64.trendPercentage 9 10 1 = (-10)%float
  /\ Binary64.trendScore (Binary64.trendPercentage 9 10 1) = 60%Z.
Proof. split; vm_compute; reflexivity. Qed.

Example binary64_standards_total :
  Binary64.percentage 45 50 = 90%float
  /\ Binary64.percentage 18 25 = 72%float
  /\ (83 <? Binary64.standardsTotal 90 80 84 90 72)%float = true
  /\ (Binary64.standardsTotal 90 80 84 90 72 <? 83.5)%float = true.
Proof. repeat split; vm_compute; reflexivity. Qed.
